(** * kitty: remote text delivery ([kitty/rc/send_text.py]) and the sRGB
    lookup-table generator ([gen-srgb-lut.py])

    A shallow embedding of the two Python sources.  Python [str] values are
    sequences of Unicode code points, [bytes] values are sequences of octets;
    dictionaries are finite maps, sets are finite sets.  Mutable objects
    reachable from several places (the payload dictionary shared by the client
    generators, the session objects held in [sessions_map], the window
    objects of the boss) live in an explicit store that every operation
    threads through. *)

From Stdlib Require Import Ascii String Qcanon.
From stdpp Require Import gmap list strings numbers.

#[local] Open Scope N_scope.

(** ** Python strings and bytes *)

(** A [str] is a list of code points, a [bytes] a list of octets. *)
Abbreviation pystr := (list N) (only parsing).
Abbreviation bytes := (list N) (only parsing).

(** A string literal of the source. *)
Definition str (s : string) : pystr := N_of_ascii <$> list_ascii_of_string s.

#[global] Arguments str : simpl never.

(** [sep.join(l)] *)
Fixpoint join (sep : pystr) (l : list pystr) : pystr :=
  match l with
  | [] => []
  | [x] => x
  | x :: r => x ++ sep ++ join sep r
  end.

(** [s.rstrip(c)] for a one-character [c]: every trailing [c] is removed. *)
Fixpoint rstrip (c : N) (s : pystr) : pystr :=
  match s with
  | [] => []
  | a :: r =>
      match rstrip c r with
      | [] => if a =? c then [] else [a]
      | r' => a :: r'
      end
  end.

(** [s.endswith(c)] for a one-character [c]. *)
Fixpoint endswith (c : N) (s : pystr) : bool :=
  match s with
  | [] => false
  | [a] => a =? c
  | _ :: r => endswith c r
  end.

(** [l[a:b]] for [0 <= a <= b]; like Python's, the slice clamps at the end
    of the list. *)
Definition slice {A} (l : list A) (a b : nat) : list A :=
  firstn (b - a) (skipn a l).

(** [s.partition(sep)] for a one-character [sep]. *)
Fixpoint partition (sep : N) (s : pystr) : pystr * pystr * pystr :=
  match s with
  | [] => ([], [], [])
  | c :: r =>
      if c =? sep then ([], [sep], r)
      else let '(h, m, t) := partition sep r in (c :: h, m, t)
  end.

(** [s.count(c)] for a one-character [c]. *)
Definition count (c : N) (s : pystr) : nat :=
  length (filter (λ a, a = c) s).

(** ** gen-srgb-lut.py *)

Module GenSrgbLut.

Section Lut.

(** ['{:1.5f}'.format(to_linear(i / 255.0))]: the digits printed for entry
    [i].  The floating-point computation of [to_linear] and its formatting
    are outside the embedding; the generator only concatenates the result. *)
Variable format_linear : nat → pystr.

(** ['{:1.5f}f'.format(to_linear(i / 255.0))] *)
Definition value (i : nat) : pystr := format_linear i ++ str "f".

(** The first loop: [values.append(...)] for [i] in [range(256)]. *)
Definition values : list pystr :=
  foldl (λ values i, values ++ [value i]) [] (seq 0 256).

(** The second loop, before the last line is stripped. *)
Definition lines_loop (line_prefix : pystr) : list pystr :=
  foldl (λ lines i,
           lines ++ [line_prefix
                     ++ join (str ", ") (slice values (i * 16) ((i + 1) * 16))
                     ++ str ","])
        [] (seq 0 16).

(** [generate_srgb_lut]; [None] stands for the [IndexError] that
    [lines[-1]] raises on an empty list. *)
Definition generate_srgb_lut (line_prefix : pystr) : option (list pystr) :=
  let lines := lines_loop line_prefix in
  match length lines with
  | O => None
  | S n =>
      l ← lines !! n;
      Some (<[n := rstrip 44 l]> lines)
  end.

(** The line expected for row [i]: the prefix, the sixteen values of the
    row separated by [", "], and a comma on every row but the last. *)
Definition lut_line (line_prefix : pystr) (i : nat) : pystr :=
  line_prefix
  ++ join (str ", ") (slice values (i * 16) ((i + 1) * 16))
  ++ (if (i <? 15)%nat then str "," else []).

(** [generate_srgb_gamma(declaration, close)]; the table comes from
    [generate_srgb_lut()] with its default prefix of four spaces. *)
Definition generate_srgb_gamma (declaration close : pystr) : option pystr :=
  lut ← generate_srgb_lut (str "    ");
  Some (join [10]
          ([str "// Generated by gen-srgb-lut.py DO NOT edit"; [];
            declaration] ++ lut ++ [close])).

(** [main()], as the files it writes, path and content, in order (the
    paths as [os.path.join] builds them on a POSIX system). *)
Definition main : option (list (pystr * pystr)) :=
  c ← generate_srgb_gamma (str "static const GLfloat srgb_lut[256] = {")
         (str "};");
  g ← generate_srgb_gamma (str "const float gamma_lut[256] = float[256](")
         (str ");");
  Some [(str "kitty/srgb_gamma.h", c ++ [10]);
        (str "kitty/srgb_gamma.glsl", g ++ [10])].

End Lut.

End GenSrgbLut.

(** ** kitty/rc/send_text.py *)

Module SendText.

(** *** Exceptions *)

Inductive exn :=
| MatchError (expression kind : pystr)
| ValueError (q : pystr)
| TypeError (encoding : pystr)
| UnboundLocalError (name : pystr)
| UnicodeDecodeError
| UnicodeEncodeError
| BinasciiError
| OSError (path : pystr).

(** *** Library functions the module imports

    Functions of the Python standard library and of other kitty modules,
    used through their interface only.  [None] stands for the exception the
    function raises on bad input. *)

Class PyLib := {
  WindowSystemKeyEvent : Type;
  (** [kitty.options.utils.parse_send_text_bytes] *)
  parse_send_text_bytes : pystr → bytes;
  (** [b.decode('utf-8')] *)
  utf8_decode : bytes → option pystr;
  (** [base64.standard_b64encode(b).decode('ascii')] *)
  standard_b64encode : bytes → pystr;
  (** [base64.standard_b64decode(s)] *)
  standard_b64decode : pystr → option bytes;
  (** [kitty.key_encoding.decode_key_event_as_window_system_key] *)
  decode_key_event_as_window_system_key : pystr → option WindowSystemKeyEvent;
  (** [w.encoded_key(ev)] of the window with the given id *)
  encoded_key : N → WindowSystemKeyEvent → bytes;
}.

(** [s.encode('utf-8')]: every code point becomes one to four octets; a
    surrogate code point cannot be encoded. *)
Definition utf8_char (c : N) : bytes :=
  if c <? 0x80 then [c]
  else if c <? 0x800 then
    [N.lor 0xC0 (N.shiftr c 6); N.lor 0x80 (N.land c 0x3F)]
  else if c <? 0x10000 then
    [N.lor 0xE0 (N.shiftr c 12); N.lor 0x80 (N.land (N.shiftr c 6) 0x3F);
     N.lor 0x80 (N.land c 0x3F)]
  else
    [N.lor 0xF0 (N.shiftr c 18); N.lor 0x80 (N.land (N.shiftr c 12) 0x3F);
     N.lor 0x80 (N.land (N.shiftr c 6) 0x3F); N.lor 0x80 (N.land c 0x3F)].

Definition is_surrogate (c : N) : bool := (0xD800 <=? c) && (c <=? 0xDFFF).

Definition utf8_bytes (s : pystr) : bytes := flat_map utf8_char s.

Definition utf8_encode (s : pystr) : option bytes :=
  if existsb is_surrogate s then None else Some (utf8_bytes s).

(** [b.decode('ascii')] *)
Definition ascii_decode (b : bytes) : option pystr :=
  if forallb (λ c, c <? 0x80) b then Some b else None.

(** [s.index(c)], when [c in s]. *)
Fixpoint index (c : N) (s : pystr) : option nat :=
  match s with
  | [] => None
  | a :: r => if a =? c then Some O else S <$> index c r
  end.

(** *** The client: [message_to_kitty] *)

(** The dictionary [ret]; [session_id] is a key this command never sets
    (other clients do), [None] when the key is absent. *)
Record payload := Payload {
  p_match : pystr;
  p_data : pystr;
  p_match_tab : pystr;
  p_all : bool;
  p_exclude_active : bool;
  p_session_id : option pystr;
}.

Definition set_data (d : pystr) (ret : payload) : payload :=
  Payload (p_match ret) d (p_match_tab ret) (p_all ret) (p_exclude_active ret)
          (p_session_id ret).

Definition set_exclude_active (b : bool) (ret : payload) : payload :=
  Payload (p_match ret) (p_data ret) (p_match_tab ret) (p_all ret) b
          (p_session_id ret).

Record CLIOptions := {
  o_match : pystr;
  o_match_tab : pystr;
  o_all : bool;
  o_exclude_active : bool;
  o_stdin : bool;
  o_from_file : pystr;
}.

(** One poll of the terminal: [tty.wait_till_read_available()] says no, or
    says yes and [tty.read(limit)] returns [data]. *)
Inductive tty_poll := NotAvailable | Read (data : bytes).

(** What the client process sees of the outside world: whether stdin is a
    terminal, what the terminal delivers poll after poll (once the script is
    used up the terminal has nothing more to deliver), the content of a
    piped stdin, and the files that can be opened. *)
Record client_env := {
  isatty : bool;
  tty : list tty_poll;
  stdin_buffer : bytes;
  open_rb : pystr → option bytes;
}.

(** How a generator stops. *)
Inductive outcome := Returned | Raised (e : exn) | Diverges.

(** A generator over the shared dictionary [ret]: run from a given content
    of [ret], it yields [ret] a number of times and stops.  Every [yield]
    hands out the same dictionary object; the consumer sends it off before it
    asks for the next one, so what is emitted is the content of [ret] at each
    [yield].  The result is the contents emitted, the content of [ret] when
    the generator stops, and how it stopped. *)
Definition gen : Type := payload → list payload * payload * outcome.

(** [yield ret] followed by the rest of the generator. *)
Definition yield_then (ret : payload) (rest : list payload * payload * outcome)
  : list payload * payload * outcome :=
  let '(ys, ret', o) := rest in (ret :: ys, ret', o).

#[global] Arguments yield_then : simpl never.

(** [for src in (g1, g2): yield from src] *)
Definition chain2 (g1 g2 : gen) : gen := λ ret,
  let '(ys1, ret1, o1) := g1 ret in
  match o1 with
  | Returned => let '(ys2, ret2, o2) := g2 ret1 in (ys1 ++ ys2, ret2, o2)
  | _ => (ys1, ret1, o1)
  end.

Definition skip : gen := λ ret, ([], ret, Returned).

(** The flag [exclude_active] is set in every content a generator run
    emitted and in the content of [ret] it left. *)
Definition keeps_exclude_active (r : list payload * payload * outcome) : Prop :=
  Forall (λ p, p_exclude_active p = true) r.1.1
  ∧ p_exclude_active r.1.2 = true.

(** A run that comes to an end: it returns or it raises. *)
Definition stops (o : outcome) : Prop := o = Returned ∨ ∃ e, o = Raised e.

(** Every content a generator run emitted, and the content of [ret] it
    left, differ from [r0] in [data] at most. *)
Definition agrees (r0 : payload) (r : list payload * payload * outcome) : Prop :=
  Forall (λ p, set_data [] p = set_data [] r0) r.1.1
  ∧ set_data [] r.1.2 = set_data [] r0.

Section Client.

Context `{PyLib}.

Variable limit : nat.

(** The loop of [pipe] on a terminal (lines 99-110). *)
Fixpoint tty_loop (script : list tty_poll) (ret : payload)
  : list payload * payload * outcome :=
  match script with
  | [] | NotAvailable :: _ => ([], ret, Returned)
  | Read data :: script =>
      match data with
      | [] => ([], ret, Returned)
      | _ =>
          match utf8_decode data with
          | None => ([], ret, Raised UnicodeDecodeError)
          | Some decoded_data =>
              match index 4 decoded_data with
              | Some i =>
                  let ret := set_data (str "text:" ++ take i decoded_data) ret in
                  yield_then ret ([], ret, Returned)
              | None =>
                  let ret := set_data (str "text:" ++ decoded_data) ret in
                  yield_then ret (tty_loop script ret)
              end
          end
      end
  end.

(** The loop of [pipe] on a pipe (lines 112-117) and of [file_pipe] (lines
    128-133): [f] is what is left to read of the file object. *)
Fixpoint read_loop (fuel : nat) (f : bytes) (ret : payload)
  : list payload * payload * outcome :=
  match fuel with
  | O => ([], ret, Diverges)
  | S fuel =>
      match take limit f with
      | [] => ([], ret, Returned)
      | data =>
          let ret := set_data (str "base64:" ++ standard_b64encode data) ret in
          yield_then ret (read_loop fuel (drop limit f) ret)
      end
  end.

Definition pipe (env : client_env) : gen := λ ret,
  if isatty env then
    let ret := set_exclude_active true ret in
    tty_loop (tty env) ret
  else read_loop (S (length (stdin_buffer env))) (stdin_buffer env) ret.

(** The loop of [chunks] (lines 121-124). *)
Fixpoint chunks_loop (fuel : nat) (data : pystr) (ret : payload)
  : list payload * payload * outcome :=
  match fuel with
  | O => ([], ret, Diverges)
  | S fuel =>
      match data with
      | [] => ([], ret, Returned)
      | _ =>
          let ret := set_data (str "text:" ++ take limit data) ret in
          yield_then ret (chunks_loop fuel (drop limit data) ret)
      end
  end.

Definition chunks (text : pystr) : gen := λ ret,
  match utf8_decode (parse_send_text_bytes text) with
  | None => ([], ret, Raised UnicodeDecodeError)
  | Some data => chunks_loop (S (length data)) data ret
  end.

Definition file_pipe (env : client_env) (path : pystr) : gen := λ ret,
  match open_rb env path with
  | None => ([], ret, Raised (OSError path))
  | Some f => read_loop (S (length f)) f ret
  end.

(** The generator [chain()] over [sources]. *)
Definition chain (env : client_env) (opts : CLIOptions) (args : list pystr)
  : gen :=
  let text := join (str " ") args in
  chain2 (if o_stdin opts then pipe env else skip)
    (chain2 (if bool_decide (o_from_file opts ≠ []) then
               file_pipe env (o_from_file opts) else skip)
            (chunks text)).

End Client.

(** [message_to_kitty]: the payloads the returned generator yields when it
    is run to its end, and how it stops. *)
Definition message_to_kitty `{PyLib} (env : client_env) (opts : CLIOptions)
    (args : list pystr) : list payload * outcome :=
  let limit := 1024%nat in
  let ret := Payload (o_match opts) [] (o_match_tab opts) (o_all opts)
                     (o_exclude_active opts) None in
  let '(ys, _, o) := chain limit env opts args ret in (ys, o).

(** *** The host: sessions, windows, timers *)

(** [class Session] *)
Record Session := mkSession {
  sess_id : pystr;
  window_ids : gset N;
  timer_id : N;
}.

(** [Session(sid)] *)
Definition new_Session (sid : pystr) : Session := mkSession sid ∅ 0.

(** What the module touches of a window object: the flag
    [screen.render_unfocused_cursor] and the list [actions_on_close]; every
    entry the module appends is [partial(clear_unfocused_cursors, sid)] and
    is recorded as its [sid].  A window object is identified with its id, so
    [w.id] is the key under which [boss.window_id_map] holds [w]. *)
Record Window := mkWindow {
  render_unfocused_cursor : N;
  actions_on_close : list pystr;
}.

Definition set_cursor (v : N) (w : Window) : Window :=
  mkWindow v (actions_on_close w).

Definition add_action_on_close (sid : pystr) (w : Window) : Window :=
  mkWindow (render_unfocused_cursor w) (actions_on_close w ++ [sid]).

(** The boss: the window and tab registry.  A tab iterates to its windows. *)
Record Boss := mkBoss {
  all_windows : list N;
  active_window : option N;
  match_windows : pystr → list N;
  match_tabs : pystr → list (list N);
  window_id_map : gmap N Window;
}.

Definition with_windows (f : gmap N Window → gmap N Window) (b : Boss) : Boss :=
  mkBoss (all_windows b) (active_window b) (match_windows b) (match_tabs b)
         (f (window_id_map b)).

(** A registered timer; every callback the module registers is
    [partial(clear_unfocused_cursors, sid)] and is recorded as its [sid]. *)
Record Timer := mkTimer {
  callback : pystr;
  interval : Qc;
  repeats : bool;
}.

(** Modelled from the spec: the timing subsystem behind [add_timer] and
    [remove_timer] of [kitty.fast_data_types], which is not part of the
    sources at hand.  The spec gives [scheduleOnce(callback, delay) ->
    TimerHandle] and [cancel(TimerHandle)], a handle of [0] meaning that no
    timer is scheduled, and timers that fire at most once unless rescheduled.
    Handles are handed out by a counter, so they are never [0] and never
    reused. *)
Record Timers := mkTimers {
  last_timer_id : N;
  active : gmap N Timer;
}.

Definition add_timer (cb : pystr) (iv : Qc) (rep : bool) (ts : Timers)
  : N * Timers :=
  let tid := N.succ (last_timer_id ts) in
  (tid, mkTimers tid (<[tid := mkTimer cb iv rep]> (active ts))).

Definition remove_timer (tid : N) (ts : Timers) : Timers :=
  mkTimers (last_timer_id ts) (delete tid (active ts)).

(** The state of the host process the module reads and writes: the module
    global [sessions_map], the boss, the timers, the option
    [cursor_stop_blinking_after], and, in order, the calls of
    [write_to_child] made so far (window id and data). *)
Record state := mkState {
  sessions_map : gmap pystr Session;
  boss : Boss;
  timers : Timers;
  cursor_stop_blinking_after : Qc;
  child_writes : list (N * bytes);
}.

Definition with_sessions (f : gmap pystr Session → gmap pystr Session)
    (st : state) : state :=
  mkState (f (sessions_map st)) (boss st) (timers st)
          (cursor_stop_blinking_after st) (child_writes st).

Definition with_boss (f : Boss → Boss) (st : state) : state :=
  mkState (sessions_map st) (f (boss st)) (timers st)
          (cursor_stop_blinking_after st) (child_writes st).

Definition with_timers (f : Timers → Timers) (st : state) : state :=
  mkState (sessions_map st) (boss st) (f (timers st))
          (cursor_stop_blinking_after st) (child_writes st).

(** [w.write_to_child(data)] *)
Definition write_to_child (w : N) (data : bytes) (st : state) : state :=
  mkState (sessions_map st) (boss st) (timers st)
          (cursor_stop_blinking_after st) (child_writes st ++ [(w, data)]).

(** [w.screen.render_unfocused_cursor = v]; also the body of the loop of
    [clear_unfocused_cursors], where a window id that [window_id_map] does
    not hold is passed over. *)
Definition set_render_unfocused_cursor (v : N) (w : N) (st : state) : state :=
  with_boss (with_windows (alter (set_cursor v) w)) st.

(** [clear_unfocused_cursors(sid, *a)] *)
Definition clear_unfocused_cursors (sid : pystr) (st : state) : state :=
  match sessions_map st !! sid with
  | None => st
  | Some s =>
      let st := with_sessions (delete sid) st in
      foldr (set_render_unfocused_cursor 0) st (elements (window_ids s))
  end.

(** The value [data] holds after the [if]/[elif] chain over [encoding]. *)
Inductive data_value `{PyLib} :=
| Bytes (b : bytes)
| Key (k : WindowSystemKeyEvent).

Section Host.

Context `{PyLib}.

(** Lines 151-165: the list [windows]. *)
Definition resolve_windows (b : Boss) (p : payload)
  : exn + list (option N) :=
  if p_all p then inr (Some <$> all_windows b)
  else
    let windows := [active_window b] in
    let windows :=
      if bool_decide (p_match p ≠ [])
      then Some <$> match_windows b (p_match p) else windows in
    if bool_decide (p_match_tab p ≠ []) then
      match match_tabs b (p_match_tab p) with
      | [] => inl (MatchError (p_match_tab p) (str "tabs"))
      | tabs => inr (Some <$> concat tabs)
      end
    else inr windows.

(** Lines 166-182: the local [data], [None] while it is unassigned, and
    the local [session]. *)
Definition decode_data (pdata : pystr)
  : exn + (option data_value * pystr) :=
  let '(encoding, _, q) := partition 58 pdata in
  if decide (encoding = str "text") then
    match utf8_encode q with
    | Some b => inr (Some (Bytes b), [])
    | None => inl UnicodeEncodeError
    end
  else if decide (encoding = str "base64") then
    match standard_b64decode q with
    | Some b => inr (Some (Bytes b), [])
    | None => inl BinasciiError
    end
  else if decide (encoding = str "kitty-key") then
    match standard_b64decode q with
    | None => inl BinasciiError
    | Some bdata =>
        match ascii_decode bdata with
        | None => inl UnicodeDecodeError
        | Some t =>
            match decode_key_event_as_window_system_key t with
            | None => inl (ValueError q)
            | Some candidate => inr (Some (Key candidate), [])
            end
        end
    end
  else if decide (encoding = str "session") then inr (None, q)
  else inl (TypeError encoding).

(** Line 184: the generator [actual_windows], as the list it yields. *)
Definition actual_windows (b : Boss) (exclude_active : bool)
    (windows : list (option N)) : list N :=
  omap (λ w : option N,
          match w with
          | Some x =>
              if negb exclude_active
                 || bool_decide (Some x ≠ active_window b)
              then Some x else None
          | None => None
          end) windows.

(** Lines 187-192.  The session object returned is the one
    [sessions_map] holds under [sid]; the callers' later assignments to it
    are updates of that entry. *)
Definition create_or_update_session (sid : pystr) (st : state) : state :=
  let s := default (new_Session sid) (sessions_map st !! sid) in
  if timer_id s =? 0 then with_sessions <[sid := s]> st
  else
    with_sessions <[sid := mkSession (sess_id s) (window_ids s) 0]>
      (with_timers (remove_timer (timer_id s)) st).

(** Line 193 *)
Definition blink_time (st : state) : Qc :=
  if decide (cursor_stop_blinking_after st = Qc_of_Z 0) then Qc_of_Z 15
  else if decide (Qc_of_Z 3 < cursor_stop_blinking_after st)%Qc
       then cursor_stop_blinking_after st else Qc_of_Z 3.

(** [s.timer_id = add_timer(partial(clear_unfocused_cursors, sid),
    blink_time, False)] *)
Definition schedule (sid : pystr) (st : state) : state :=
  let '(tid, ts) := add_timer sid (blink_time st) false (timers st) in
  with_sessions
    (alter (λ s, mkSession (sess_id s) (window_ids s) tid) sid)
    (with_timers (λ _, ts) st).

(** [s.window_ids.discard(w.id)] and [s.window_ids.add(w.id)] *)
Definition discard_window (sid : pystr) (w : N) (st : state) : state :=
  with_sessions
    (alter (λ s, mkSession (sess_id s) (window_ids s ∖ {[w]}) (timer_id s)) sid)
    st.

Definition add_window (sid : pystr) (w : N) (st : state) : state :=
  with_sessions
    (alter (λ s, mkSession (sess_id s) (window_ids s ∪ {[w]}) (timer_id s)) sid)
    st.

(** The loop of lines 213-222. *)
Fixpoint deliver (sid : pystr) (data : option data_value) (ws : list N)
    (st : state) : state * (exn + unit) :=
  match ws with
  | [] => (st, inr ())
  | w :: ws =>
      let st :=
        if bool_decide (sid ≠ []) then
          add_window sid w (set_render_unfocused_cursor 1 w st)
        else st in
      match data with
      | None => (st, inl (UnboundLocalError (str "data")))
      | Some (Key k) =>
          match encoded_key w k with
          | [] => deliver sid data ws st
          | kdata => deliver sid data ws (write_to_child w kdata st)
          end
      | Some (Bytes b) => deliver sid data ws (write_to_child w b st)
      end
  end.

(** The call of [write_to_child] that the delivery of [data] makes on
    window [w], if any. *)
Definition write_for (data : data_value) (w : N) : option (N * bytes) :=
  match data with
  | Bytes b => Some (w, b)
  | Key k =>
      match encoded_key w k with
      | [] => None
      | kdata => Some (w, kdata)
      end
  end.

(** [response_from_kitty(boss, window, payload_get)]: the state it leaves
    and the exception it raises, if any.  [window] is the window the
    request came from. *)
Definition response_from_kitty (window : option N) (p : payload)
    (st : state) : state * (exn + unit) :=
  match resolve_windows (boss st) p with
  | inl e => (st, inl e)
  | inr windows =>
      match decode_data (p_data p) with
      | inl e => (st, inl e)
      | inr (data, session) =>
          let ws := actual_windows (boss st) (p_exclude_active p) windows in
          let sid := default [] (p_session_id p) in
          if decide (session = str "end") then
            let st := create_or_update_session sid st in
            let st :=
              foldl (λ st w,
                       discard_window sid w
                         (set_render_unfocused_cursor 0 w st)) st ws in
            (clear_unfocused_cursors sid st, inr ())
          else if decide (session = str "start") then
            let st := create_or_update_session sid st in
            let st :=
              match window with
              | Some w0 =>
                  with_boss
                    (with_windows (alter (add_action_on_close sid) w0)) st
              | None => st
              end in
            let st := schedule sid st in
            let st :=
              foldl (λ st w,
                       add_window sid w
                         (set_render_unfocused_cursor 1 w st)) st ws in
            (st, inr ())
          else
            let st :=
              if bool_decide (sid ≠ []) then
                schedule sid (create_or_update_session sid st)
              else st in
            deliver sid data ws st
      end
  end.

End Host.

(** *** The event loop around the module *)

(** Modelled from the spec: the loop firing a timer, which is not part of
    the sources at hand.  A timer fires at most once unless it repeats; when
    it fires its callback runs. *)
Definition fire_timer (tid : N) (st : state) : state :=
  match active (timers st) !! tid with
  | None => st
  | Some t =>
      let st := if repeats t then st else with_timers (remove_timer tid) st in
      clear_unfocused_cursors (callback t) st
  end.

(** Modelled from the spec: a window being closed, which is not part of the
    sources at hand.  The actions registered in [actions_on_close] run (for
    this module each is [clear_unfocused_cursors(sid, window)]: closing the
    window triggers the same cleanup as expiry), and the boss forgets the
    window. *)
Definition close_window (w : N) (st : state) : state :=
  match window_id_map (boss st) !! w with
  | None => st
  | Some win =>
      let st := with_boss (with_windows (delete w)) st in
      foldl (λ st sid, clear_unfocused_cursors sid st) st (actions_on_close win)
  end.

Inductive event `{PyLib} :=
| Request (window : option N) (p : payload)
| TimerFires (tid : N)
| WindowCloses (w : N).

Definition step `{PyLib} (st : state) (ev : event) : state :=
  match ev with
  | Request window p => (response_from_kitty window p st).1
  | TimerFires tid => fire_timer tid st
  | WindowCloses w => close_window w st
  end.

(** A run of requests and timer expiries. *)
Definition no_window_closes `{PyLib} (evs : list event) : Prop :=
  Forall (λ ev, match ev with WindowCloses _ => False | _ => True end) evs.

(** The expiry timers outstanding for a session id. *)
Definition outstanding (sid : pystr) (st : state) : gmap N Timer :=
  filter (λ kt, callback kt.2 = sid) (active (timers st)).

(** Every session knows its expiry timer: an outstanding timer has a handle
    other than [0], fires once, and is the [timer_id] of the session that
    [sessions_map] holds under the id the timer was scheduled for. *)
Definition timers_ok (st : state) : Prop :=
  ∀ tid t,
    active (timers st) !! tid = Some t →
    tid ≠ 0 ∧ repeats t = false
    ∧ ∃ s, sessions_map st !! callback t = Some s ∧ timer_id s = tid.

(** The session [sid] knows its expiry timers: every timer outstanding for
    [sid] has a handle other than [0], and that handle is the [timer_id] of
    the session that [sessions_map] holds under [sid]. *)
Definition timers_recorded (sid : pystr) (st : state) : Prop :=
  ∀ tid t,
    active (timers st) !! tid = Some t → callback t = sid →
    tid ≠ 0 ∧ ∃ s, sessions_map st !! sid = Some s ∧ timer_id s = tid.

(** What the boss knows of the windows apart from their flags: which
    windows there are, which one is active, what the predicates match. *)
Definition registry (b : Boss)
  : list N * option N * (pystr → list N) * (pystr → list (list N)) :=
  (all_windows b, active_window b, match_windows b, match_tabs b).

(** The boss [b'] differs from [b] at most in the flags
    [render_unfocused_cursor] of the windows. *)
Definition flags_only (b b' : Boss) : Prop :=
  registry b' = registry b
  ∧ ∀ w, actions_on_close <$> window_id_map b' !! w
         = actions_on_close <$> window_id_map b !! w.

(** The boss [b'] differs from [b] at most in the flags of the windows and
    in close actions added at the end of their lists. *)
Definition grows_only (b b' : Boss) : Prop :=
  registry b' = registry b
  ∧ ∀ w, ∃ extra,
      actions_on_close <$> window_id_map b' !! w
      = (λ win, actions_on_close win ++ extra) <$> window_id_map b !! w.

(** The host handling the requests of a client one after the other: the
    state it is left in and the outcome of each request. *)
Fixpoint handle_all `{PyLib} (window : option N) (ps : list payload)
    (st : state) : state * list (exn + unit) :=
  match ps with
  | [] => (st, [])
  | p :: ps =>
      let '(st1, r) := response_from_kitty window p st in
      let '(st2, rs) := handle_all window ps st1 in
      (st2, r :: rs)
  end.

(** The data written to window [w], in order, among the writes [log]. *)
Definition written_to (w : N) (log : list (N * bytes)) : list bytes :=
  snd <$> filter (λ x, x.1 = w) log.

End SendText.

(** ** Concrete instances

    A small library instance and small worlds on which the definitions
    above can be run. *)

Module Demo.
Import SendText.

(** Escapes are not expanded, octets are code points, base64 is the
    identity, no key event decodes. *)
Definition lib : PyLib := {|
  WindowSystemKeyEvent := unit;
  parse_send_text_bytes := λ t, t;
  utf8_decode := λ b, Some b;
  standard_b64encode := λ b, b;
  standard_b64decode := λ s, Some s;
  decode_key_event_as_window_system_key := λ _, None;
  encoded_key := λ _ _, [];
|}.

(** Stdin is a terminal on which [hi] is typed, then Ctrl-D. *)
Definition env_tty : client_env := {|
  isatty := true;
  tty := [Read (str "hi"); Read [4]];
  stdin_buffer := [];
  open_rb := λ _, None;
|}.

Definition opts_literal : CLIOptions := {|
  o_match := []; o_match_tab := []; o_all := false;
  o_exclude_active := false; o_stdin := false; o_from_file := [];
|}.

Definition opts_stdin : CLIOptions := {|
  o_match := []; o_match_tab := []; o_all := false;
  o_exclude_active := false; o_stdin := true; o_from_file := [];
|}.

(** A text of 1030 text units. *)
Definition long_text : pystr := repeat 97 1030.

(** Three windows, window 1 active; the window predicate [id:2] matches
    window 2, no other predicate matches anything. *)
Definition boss0 : Boss := {|
  all_windows := [1; 2; 3];
  active_window := Some 1;
  match_windows := λ m, if decide (m = str "id:2") then [2] else [];
  match_tabs := λ _, [];
  window_id_map :=
    list_to_map [(1, mkWindow 0 []); (2, mkWindow 0 []); (3, mkWindow 0 [])];
|}.

(** The host before any request: no session, no timer, nothing written. *)
Definition st0 : state := {|
  sessions_map := ∅;
  boss := boss0;
  timers := mkTimers 0 ∅;
  cursor_stop_blinking_after := Qc_of_Z 0;
  child_writes := [];
|}.

(** The host while a session [a] is live on the three windows: the state
    that a [start] control for [a], sent to all windows, leaves. *)
Definition st_live : state := {|
  sessions_map := {[ str "a" := mkSession (str "a") {[1; 2; 3]} 1 ]};
  boss := {|
    all_windows := [1; 2; 3];
    active_window := Some 1;
    match_windows := λ m, if decide (m = str "id:2") then [2] else [];
    match_tabs := λ _, [];
    window_id_map :=
      list_to_map [(1, mkWindow 1 []); (2, mkWindow 1 []); (3, mkWindow 1 [])];
  |};
  timers := mkTimers 1 {[ 1 := mkTimer (str "a") (Qc_of_Z 15) false ]};
  cursor_stop_blinking_after := Qc_of_Z 0;
  child_writes := [];
|}.

(** A request to all windows. *)
Definition to_all (exclude_active : bool) (data : pystr)
    (sid : option pystr) : payload :=
  Payload [] data [] true exclude_active sid.

(** The session [s] is started from window 1 on all windows; window 1 is
    closed; the session [s] is started again, on window 2. *)
Definition restart_after_close : list (@event lib) := [
  Request (Some 1) (to_all false (str "session:start") (Some (str "s")));
  WindowCloses 1;
  Request None
    (Payload (str "id:2") (str "session:start") [] false false
       (Some (str "s")))
].

(** The [start] and the [end] control for the session [s] on window 2. *)
Definition start_on_2 : payload :=
  Payload (str "id:2") (str "session:start") [] false false (Some (str "s")).

Definition end_on_2 : payload :=
  Payload (str "id:2") (str "session:end") [] false false (Some (str "s")).

(** The session [s] is started from window 1 on all windows; window 1 is
    closed; the session [s] is started on window 2, then ended on window
    2. *)
Definition start_end_after_close : list (@event lib) := [
  Request (Some 1) (to_all false (str "session:start") (Some (str "s")));
  WindowCloses 1;
  Request None start_on_2;
  Request None end_on_2
].

(** Stdin is a pipe that delivers [in]; the file [f] holds [file] and
    there is no other file. *)
Definition env_pipe : client_env := {|
  isatty := false;
  tty := [];
  stdin_buffer := str "in";
  open_rb := λ path, if decide (path = str "f") then Some (str "file") else None;
|}.

Definition opts_all_sources : CLIOptions := {|
  o_match := []; o_match_tab := []; o_all := false;
  o_exclude_active := false; o_stdin := true; o_from_file := str "f";
|}.

Definition opts_file : CLIOptions := {|
  o_match := []; o_match_tab := []; o_all := false;
  o_exclude_active := false; o_stdin := false; o_from_file := str "f";
|}.

Definition opts_missing_file : CLIOptions := {|
  o_match := []; o_match_tab := []; o_all := false;
  o_exclude_active := false; o_stdin := false; o_from_file := str "nofile";
|}.

(** Two [start] controls for the session [s], the expiry of the second
    timer, and a third [start]. *)
Definition starts_and_expiry : list (@event lib) := [
  Request None (to_all false (str "session:start") (Some (str "s")));
  Request None (to_all false (str "session:start") (Some (str "s")));
  TimerFires 2;
  Request None (to_all false (str "session:start") (Some (str "s")))
].

End Demo.

(** * Properties *)

(** ** Strings and lists *)

Lemma rstrip_one c s x : x ≠ c → rstrip c (s ++ [x; c]) = s ++ [x].
Proof.
  intros Hx. induction s as [|a s IH]; simpl.
  - rewrite N.eqb_refl. destruct (N.eqb_spec x c); congruence.
  - rewrite IH. destruct s; reflexivity.
Qed.

Lemma endswith_snoc c s x : endswith c (s ++ [x]) = (x =? c).
Proof.
  induction s as [|a s IH]; [reflexivity|].
  simpl. rewrite IH. destruct s; reflexivity.
Qed.

Lemma join_last sep l x : ∃ s, join sep (l ++ [x]) = s ++ x.
Proof.
  induction l as [|a l [s IH]]; simpl.
  - by exists [].
  - destruct (l ++ [x]) eqn:E.
    + by destruct l.
    + rewrite IH. exists (a ++ sep ++ s). by rewrite <- !app_assoc.
Qed.

Lemma foldl_snoc_map {A B} (f : A → B) (l : list A) (acc : list B) :
  foldl (λ acc i, acc ++ [f i]) acc l = acc ++ map f l.
Proof.
  revert acc. induction l as [|a l IH]; intros acc; simpl.
  - by rewrite app_nil_r.
  - rewrite IH. by rewrite <- app_assoc.
Qed.


(** ** gen-srgb-lut.py *)

Section LutProps.

Variable format_linear : nat → pystr.

Local Abbreviation value := (GenSrgbLut.value format_linear).
Local Abbreviation lut_line := (GenSrgbLut.lut_line format_linear).

Lemma values_map : GenSrgbLut.values format_linear = map value (seq 0 256).
Proof. unfold GenSrgbLut.values. by rewrite foldl_snoc_map. Qed.

Lemma lines_loop_map line_prefix :
  GenSrgbLut.lines_loop format_linear line_prefix =
  map (λ i, line_prefix
            ++ join (str ", ")
                 (slice (GenSrgbLut.values format_linear) (i * 16) ((i + 1) * 16))
            ++ str ",") (seq 0 16).
Proof. unfold GenSrgbLut.lines_loop. by rewrite foldl_snoc_map. Qed.

Lemma slice_values i :
  (i < 16)%nat →
  slice (GenSrgbLut.values format_linear) (i * 16) ((i + 1) * 16)
  = map value (seq (i * 16) 16).
Proof.
  intros Hi. rewrite values_map. unfold slice.
  rewrite skipn_map, firstn_map. f_equal.
  do 16 (destruct i as [|i]; [reflexivity|]). lia.
Qed.

Lemma last_slice_join :
  ∃ s, join (str ", ") (map value (seq 240 16)) = s ++ [102].
Proof.
  change (seq 240 16) with (seq 240 15 ++ [255%nat]).
  rewrite map_app. simpl map at 2.
  destruct (join_last (str ", ") (map value (seq 240 15)) (value 255)) as [s Hs].
  exists (s ++ format_linear 255). rewrite Hs. unfold value.
  by rewrite <- app_assoc.
Qed.

(** C10: for every line prefix, [generate_srgb_lut] returns exactly 16
    lines; line [i] carries the values [16 i .. 16 i + 15] of the 256-entry
    table (so the lines together carry all 256 values, 16 per line); each of
    the first 15 lines ends with a comma and the last one does not. *)
Theorem generate_srgb_lut_lines (line_prefix : pystr) :
  ∃ lines,
    GenSrgbLut.generate_srgb_lut format_linear line_prefix = Some lines
    ∧ length lines = 16%nat
    ∧ lines = map (lut_line line_prefix) (seq 0 16)
    ∧ length (GenSrgbLut.values format_linear) = 256%nat
    ∧ Forall (λ i, length (slice (GenSrgbLut.values format_linear)
                             (i * 16) ((i + 1) * 16)) = 16%nat) (seq 0 16)
    ∧ concat (map (λ i, slice (GenSrgbLut.values format_linear)
                          (i * 16) ((i + 1) * 16)) (seq 0 16))
      = GenSrgbLut.values format_linear
    ∧ forallb (endswith 44) (take 15 lines) = true
    ∧ endswith 44 <$> lines !! 15%nat = Some false.
Proof.
  assert (Hlast : rstrip 44 (line_prefix
                      ++ join (str ", ") (map value (seq 240 16)) ++ str ",")
                  = lut_line line_prefix 15).
  { unfold lut_line. rewrite slice_values by lia.
    change (15 * 16)%nat with 240%nat. change (15 <? 15)%nat with false.
    destruct last_slice_join as [s Hs]. rewrite Hs, app_nil_r.
    change (str ",") with [44].
    replace (line_prefix ++ (s ++ [102]) ++ [44])
      with ((line_prefix ++ s) ++ [102; 44]) by by rewrite <- !app_assoc.
    rewrite rstrip_one by done. by rewrite <- app_assoc. }
  assert (Hgen : GenSrgbLut.generate_srgb_lut format_linear line_prefix
                 = Some (map (lut_line line_prefix) (seq 0 16))).
  { unfold GenSrgbLut.generate_srgb_lut. rewrite lines_loop_map.
    rewrite length_map, length_seq. cbn [seq map lookup list_lookup mbind option_bind].
    rewrite (slice_values 15) by lia. change (15 * 16)%nat with 240%nat.
    cbn [list_insert insert]. rewrite Hlast. reflexivity. }
  eexists. split; [exact Hgen|].
  split; [by rewrite length_map, length_seq|].
  split; [reflexivity|].
  split; [by rewrite values_map, length_map, length_seq|].
  split.
  { apply Forall_forall. intros i Hi. apply in_seq in Hi.
    rewrite slice_values by lia. by rewrite length_map, length_seq. }
  split.
  { rewrite values_map. cbn [seq map].
    rewrite !(slice_values) by lia. reflexivity. }
  split.
  { cbn [seq map take forallb]. unfold lut_line.
    cbn [Nat.ltb Nat.leb]. change (str ",") with [44].
    rewrite !app_assoc, !endswith_snoc. reflexivity. }
  cbn [seq map lookup list_lookup fmap option_fmap option_map].
  f_equal. unfold lut_line. change (15 <? 15)%nat with false.
  rewrite slice_values by lia. change (15 * 16)%nat with 240%nat.
  destruct last_slice_join as [s Hs]. rewrite Hs, app_nil_r, app_assoc.
  by rewrite endswith_snoc.
Qed.

End LutProps.

(** ** send_text.py: the client *)

Lemma take_plus {A} (a b : nat) (l : list A) :
  take (a + b) l = take a l ++ take b (drop a l).
Proof.
  revert l. induction a as [|a IH]; intros l; [reflexivity|].
  destruct l as [|x l]; simpl.
  - by rewrite take_nil.
  - by rewrite IH.
Qed.

Lemma partition_tag (t c : pystr) :
  58 ∉ t → partition 58 (t ++ 58 :: c) = (t, [58], c).
Proof.
  intros Ht.
  induction t as [|a t IH]; simpl.
  - reflexivity.
  - apply not_elem_of_cons in Ht as [Ha Ht].
    destruct (N.eqb_spec a 58) as [->|_]; [done|].
    by rewrite IH.
Qed.

Lemma utf8_bytes_concat (l : list pystr) :
  concat (SendText.utf8_bytes <$> l) = SendText.utf8_bytes (concat l).
Proof.
  unfold SendText.utf8_bytes. induction l as [|c l IH]; [reflexivity|].
  rewrite fmap_cons. simpl concat. by rewrite flat_map_app, IH.
Qed.

Section ClientProps.

Context `{SendText.PyLib}.
Import SendText.

Lemma chunks_loop_cons limit fuel a data ret :
  chunks_loop limit (S fuel) (a :: data) ret
  = yield_then (set_data (str "text:" ++ take limit (a :: data)) ret)
      (chunks_loop limit fuel (drop limit (a :: data))
         (set_data (str "text:" ++ take limit (a :: data)) ret)).
Proof. reflexivity. Qed.

(** The loop of [chunks] stops when it has fuel for every text unit, and
    it yields the successive slices of [data]. *)
Lemma chunks_loop_spec (limit : nat) (fuel : nat) :
  (0 < limit)%nat →
  ∀ (data : pystr) (ret0 ret : payload),
    (length data < fuel)%nat →
    ret = ret0 ∨ (∃ d, ret = set_data d ret0) →
    ∃ (cs : list pystr) (ret' : payload),
      chunks_loop limit fuel data ret
      = ((λ c, set_data (str "text:" ++ c) ret0) <$> cs, ret', Returned)
      ∧ Forall (λ c, (0 < length c ≤ limit)%nat) cs
      ∧ concat cs = data
      ∧ ∀ k, concat (take k cs) = take (k * limit) data.
Proof.
  intros Hl. induction fuel as [|fuel IH]; intros data ret0 ret Hf Hret; [lia|].
  destruct data as [|a data].
  - exists [], ret. repeat split; [constructor|].
    intros k. by rewrite !take_nil.
  - rewrite chunks_loop_cons. set (d := a :: data) in *.
    assert (Hlen : (length (drop limit d) < fuel)%nat).
    { rewrite length_drop. subst d. simpl in *. lia. }
    destruct (IH (drop limit d) ret0
                (set_data (str "text:" ++ take limit d) ret) Hlen)
      as (cs & ret' & Heq & Hall & Hcat & Hk).
    { right. destruct Hret as [->|[d' ->]]; eauto. }
    exists (take limit d :: cs), ret'.
    rewrite Heq. unfold yield_then.
    assert (Hsd : set_data (str "text:" ++ take limit d) ret
                  = set_data (str "text:" ++ take limit d) ret0).
    { destruct Hret as [->|[d' ->]]; reflexivity. }
    split; [by rewrite Hsd|].
    split.
    { constructor; [|done]. rewrite length_take. subst d. simpl. lia. }
    split.
    { simpl. rewrite Hcat. apply take_drop. }
    intros [|k]; [reflexivity|].
    simpl take. simpl concat. rewrite Hk.
    replace (S k * limit)%nat with (limit + k * limit)%nat by lia.
    by rewrite take_plus.
Qed.

(** C1: the generator [chunks] of [message_to_kitty], on a literal text
    whose escape expansion decodes to [data] (in particular on every text
    longer than the limit of 1024), stops after finitely many payloads;
    every payload is tagged [text] and carries at most 1024 (and at least
    one) text units; the texts the host decodes from the payloads,
    concatenated in order, are [data]; and every chunk boundary is a
    boundary between text units: the text before the [k]-th boundary is the
    first [1024 k] text units of [data], so the UTF-8 octets sent before it
    are the encoding of whole text units. *)
Theorem chunks_reassemble (env : client_env) (opts : CLIOptions)
    (args : list pystr) (data : pystr) :
  o_stdin opts = false →
  o_from_file opts = [] →
  utf8_decode (parse_send_text_bytes (join (str " ") args)) = Some data →
  ∃ cs : list pystr,
    message_to_kitty env opts args
    = ((λ c, Payload (o_match opts) (str "text:" ++ c) (o_match_tab opts)
                     (o_all opts) (o_exclude_active opts) None) <$> cs,
       Returned)
    ∧ Forall (λ c, (0 < length c ≤ 1024)%nat) cs
    ∧ Forall (λ c, partition 58 (str "text:" ++ c) = (str "text", [58], c)) cs
    ∧ concat cs = data
    ∧ (∀ k, concat (take k cs) = take (k * 1024) data)
    ∧ (∀ k, concat (utf8_bytes <$> take k cs)
            = utf8_bytes (take (k * 1024) data)).
Proof.
  intros Hstdin Hfile Hdec.
  unfold message_to_kitty, chain. rewrite Hstdin, Hfile.
  rewrite bool_decide_eq_false_2 by (intros Hne; by apply Hne).
  set (ret := Payload _ _ _ _ _ _).
  unfold chain2, skip, chunks. rewrite Hdec.
  destruct (chunks_loop_spec 1024 (S (length data)) ltac:(lia) data ret ret)
    as (cs & ret' & Heq & Hall & Hcat & Hk); [lia|by left|].
  exists cs. rewrite Heq. simpl app.
  split; [reflexivity|]. split; [exact Hall|].
  split.
  { apply Forall_forall. intros c _.
    refine (partition_tag (str "text") c _).
    vm_compute. intros Hin.
    repeat (apply elem_of_cons in Hin as [Hin|Hin]; [discriminate|]).
    by apply elem_of_nil in Hin. }
  split; [exact Hcat|]. split; [exact Hk|].
  intros k. rewrite <- Hk. apply utf8_bytes_concat.
Qed.

(** *** The flag [exclude_active] of the shared dictionary *)

Lemma yield_then_keeps ret r :
  p_exclude_active ret = true →
  keeps_exclude_active r → keeps_exclude_active (yield_then ret r).
Proof.
  destruct r as [[ys ret'] o]. intros Hret [Hys Hr]. split; simpl; auto.
Qed.

Lemma tty_loop_keeps script ret :
  p_exclude_active ret = true → keeps_exclude_active (tty_loop script ret).
Proof.
  revert ret. induction script as [|[|data] script IH]; intros ret Hret;
    try (split; simpl; auto; fail).
  simpl. destruct data as [|b data]; [split; simpl; auto|].
  destruct (utf8_decode (b :: data)) as [decoded|]; [|split; simpl; auto].
  destruct (index 4 decoded) as [i|].
  - apply yield_then_keeps; [done|]. split; simpl; auto.
  - apply yield_then_keeps; [done|]. by apply IH.
Qed.

Lemma read_loop_keeps limit fuel f ret :
  p_exclude_active ret = true →
  keeps_exclude_active (read_loop limit fuel f ret).
Proof.
  revert f ret. induction fuel as [|fuel IH]; intros f ret Hret;
    [split; simpl; auto|].
  simpl. destruct (take limit f) as [|b data]; [split; simpl; auto|].
  apply yield_then_keeps; [done|]. by apply IH.
Qed.

Lemma chunks_loop_keeps limit fuel data ret :
  p_exclude_active ret = true →
  keeps_exclude_active (chunks_loop limit fuel data ret).
Proof.
  revert data ret. induction fuel as [|fuel IH]; intros data ret Hret;
    [split; simpl; auto|].
  destruct data as [|a data]; [split; simpl; auto|].
  rewrite chunks_loop_cons. apply yield_then_keeps; [done|]. by apply IH.
Qed.

Lemma chain2_keeps (g1 g2 : gen) ret :
  keeps_exclude_active (g1 ret) →
  (∀ ret', p_exclude_active ret' = true → keeps_exclude_active (g2 ret')) →
  keeps_exclude_active (chain2 g1 g2 ret).
Proof.
  unfold chain2. destruct (g1 ret) as [[ys1 ret1] o1]. intros [H1 Hr1] H2.
  destruct o1; try (split; simpl; auto; fail).
  specialize (H2 ret1 Hr1). destruct (g2 ret1) as [[ys2 ret2] o2].
  destruct H2 as [H2 Hr2]. split; simpl in *; [|done].
  by apply Forall_app.
Qed.

(** C9: when stdin is the selected source and is a terminal, every payload
    the generator of [message_to_kitty] yields has [exclude_active] set,
    whatever the caller passed in [opts]: the payloads read from the
    terminal and, the dictionary being shared, those of the sources that
    follow. *)
Theorem pipe_tty_sets_exclude_active (env : client_env) (opts : CLIOptions)
    (args : list pystr) :
  o_stdin opts = true →
  isatty env = true →
  Forall (λ p, p_exclude_active p = true) (message_to_kitty env opts args).1.
Proof.
  intros Hstdin Htty. unfold message_to_kitty.
  set (ret := Payload _ _ _ _ _ _).
  assert (Hk : keeps_exclude_active (chain 1024 env opts args ret)).
  { unfold chain. rewrite Hstdin. apply chain2_keeps.
    - unfold pipe. rewrite Htty. by apply tty_loop_keeps.
    - intros ret1 Hret1. apply chain2_keeps.
      + case_bool_decide; [|split; simpl; auto].
        unfold file_pipe. destruct (open_rb env _); [|split; simpl; auto].
        by apply read_loop_keeps.
      + intros ret2 Hret2. unfold chunks.
        destruct (utf8_decode _); [|split; simpl; auto].
        by apply chunks_loop_keeps. }
  destruct (chain 1024 env opts args ret) as [[ys ret'] o].
  exact (proj1 Hk).
Qed.

End ClientProps.

(** C1 at a text of 1030 text units. *)
Lemma chunks_reassemble_witness :
  (1024 < length Demo.long_text)%nat
  ∧ ∃ cs : list pystr,
      @SendText.message_to_kitty Demo.lib Demo.env_tty Demo.opts_literal
        [Demo.long_text]
      = ((λ c, SendText.Payload [] (str "text:" ++ c) [] false false None)
           <$> cs, SendText.Returned)
      ∧ Forall (λ c, (0 < length c ≤ 1024)%nat) cs
      ∧ concat cs = Demo.long_text.
Proof.
  split; [vm_compute; lia|].
  destruct (@chunks_reassemble Demo.lib Demo.env_tty Demo.opts_literal
              [Demo.long_text] Demo.long_text eq_refl eq_refl eq_refl)
    as (cs & Heq & Hall & _ & Hcat & _).
  exists cs. split; [exact Heq|]. split; [exact Hall|exact Hcat].
Defined.

(** C9 at a terminal on which [hi] and then Ctrl-D are typed, followed by
    the literal text [x], the caller having left [exclude_active] unset. *)
Lemma pipe_tty_sets_exclude_active_witness :
  SendText.o_exclude_active Demo.opts_stdin = false
  ∧ length (@SendText.message_to_kitty Demo.lib Demo.env_tty Demo.opts_stdin
              [str "x"]).1 = 3%nat
  ∧ Forall (λ p, SendText.p_exclude_active p = true)
      (@SendText.message_to_kitty Demo.lib Demo.env_tty Demo.opts_stdin
         [str "x"]).1.
Proof.
  split; [reflexivity|]. split; [vm_compute; reflexivity|].
  apply (@pipe_tty_sets_exclude_active Demo.lib); reflexivity.
Defined.

(** The example of the spec: [hello] with a limit of 2 is sent as [he],
    [ll], [o]. *)
Example chunks_hello :
  SendText.p_data <$>
    (@SendText.chunks_loop 2 6 (str "hello")
       (SendText.Payload [] [] [] false false None)).1.1
  = [str "text:he"; str "text:ll"; str "text:o"].
Proof. vm_compute. reflexivity. Qed.

(** ** send_text.py: the host *)

Section HostProps.

Context `{SendText.PyLib}.
Import SendText.

(** *** What the data field decodes to *)

Lemma decode_session (q : pystr) :
  decode_data (str "session:" ++ q) = inr (None, q).
Proof.
  unfold decode_data.
  replace (partition 58 (str "session:" ++ q))
    with (str "session", [58], q).
  - repeat (case_decide; [discriminate|]). by case_decide.
  - symmetry. refine (partition_tag (str "session") q _).
    vm_compute. intros Hin.
    repeat (apply elem_of_cons in Hin as [Hin|Hin]; [discriminate|]).
    by apply elem_of_nil in Hin.
Qed.

Lemma decode_start (p : payload) :
  p_data p = str "session:start" →
  decode_data (p_data p) = inr (None, str "start").
Proof. intros ->. exact (decode_session (str "start")). Qed.

Lemma decode_end (p : payload) :
  p_data p = str "session:end" →
  decode_data (p_data p) = inr (None, str "end").
Proof. intros ->. exact (decode_session (str "end")). Qed.

(** Only a [session] payload leaves [data] unassigned, and only it sets
    [session]. *)
Lemma decode_data_assigned pdata d session :
  decode_data pdata = inr (Some d, session) → session = [].
Proof.
  unfold decode_data. destruct (partition 58 pdata) as [[encoding m] q].
  repeat case_decide; repeat case_match; congruence.
Qed.

(** *** Writes to the windows *)

Lemma child_writes_create sid st :
  child_writes (create_or_update_session sid st) = child_writes st.
Proof. unfold create_or_update_session. by case_match. Qed.

Lemma child_writes_schedule sid st :
  child_writes (schedule sid st) = child_writes st.
Proof. reflexivity. Qed.

Lemma child_writes_clear sid st :
  child_writes (clear_unfocused_cursors sid st) = child_writes st.
Proof.
  unfold clear_unfocused_cursors. case_match; [|done].
  generalize (elements (window_ids s)) as l. intros l.
  by induction l as [|w l IH].
Qed.

Lemma child_writes_foldl (f : state → N → state) (ws : list N) st :
  (∀ st w, child_writes (f st w) = child_writes st) →
  child_writes (foldl f st ws) = child_writes st.
Proof.
  intros Hf. revert st. induction ws as [|w ws IH]; intros st; [done|].
  simpl. by rewrite IH, Hf.
Qed.

(** C7: a payload whose data is the session control [start] or [end]
    makes no call of [write_to_child], on any window. *)
Theorem session_control_no_write (window : option N) (p : payload)
    (st : state) :
  p_data p = str "session:start" ∨ p_data p = str "session:end" →
  child_writes (response_from_kitty window p st).1 = child_writes st.
Proof.
  intros Hdata. unfold response_from_kitty.
  destruct (resolve_windows (boss st) p) as [e|windows]; [done|].
  destruct Hdata as [-> | ->].
  - change (str "session:start") with (str "session:" ++ str "start").
    rewrite decode_session.
    case_decide; [discriminate|]. case_decide; [|done]. simpl.
    rewrite child_writes_foldl by done.
    rewrite child_writes_schedule.
    destruct window; simpl; apply child_writes_create.
  - change (str "session:end") with (str "session:" ++ str "end").
    rewrite decode_session.
    case_decide; [|done]. simpl.
    rewrite child_writes_clear, child_writes_foldl by done.
    apply child_writes_create.
Qed.

(** C8: a payload tagged [session] whose control value is neither [start]
    nor [end] (the empty value, for one) makes the handler fail as soon as
    there is a window to deliver to: [data] is read at line 217 without
    ever having been assigned. *)
Theorem session_garbage_unbound (window : option N) (p : payload)
    (st : state) (q : pystr) (windows : list (option N)) :
  p_data p = str "session:" ++ q →
  q ≠ str "start" →
  q ≠ str "end" →
  resolve_windows (boss st) p = inr windows →
  actual_windows (boss st) (p_exclude_active p) windows ≠ [] →
  (response_from_kitty window p st).2 = inl (UnboundLocalError (str "data")).
Proof.
  intros Hdata Hstart Hend Hres Hws. unfold response_from_kitty.
  rewrite Hres, Hdata, decode_session.
  case_decide; [done|]. case_decide; [done|].
  destruct (actual_windows _ _ _) as [|w ws]; [done|].
  reflexivity.
Qed.

(** C5: when the resolver consults the tab-match predicate ([all] is not
    set and the predicate is present) and the predicate matches no tab, the
    handler raises [MatchError] naming the predicate and [tabs], and leaves
    the whole state as it was: nothing is written to any window. *)
Theorem no_tab_match_raises (window : option N) (p : payload) (st : state) :
  p_all p = false →
  p_match_tab p ≠ [] →
  match_tabs (boss st) (p_match_tab p) = [] →
  response_from_kitty window p st
  = (st, inl (MatchError (p_match_tab p) (str "tabs")))
  ∧ child_writes (response_from_kitty window p st).1 = child_writes st.
Proof.
  intros Hall Hmt Htabs.
  assert (Hr : response_from_kitty window p st
               = (st, inl (MatchError (p_match_tab p) (str "tabs")))).
  { unfold response_from_kitty, resolve_windows.
    rewrite Hall, Htabs. by rewrite bool_decide_eq_true_2. }
  by rewrite Hr.
Qed.

(** *** The windows a request is delivered to *)

Lemma actual_windows_exclude (b : Boss) (windows : list (option N)) :
  actual_windows b true windows
  = filter (λ w, Some w ≠ active_window b) (omap id windows).
Proof.
  unfold actual_windows. cbn [negb orb].
  induction windows as [|[w|] windows IH]; [done| |done].
  cbn [omap list_omap id]. rewrite filter_cons.
  case_bool_decide.
  - rewrite decide_True by done. by rewrite IH.
  - rewrite decide_False by (intros Hne; by apply Hne). done.
Qed.

Lemma child_writes_mark sid w st :
  child_writes
    (if bool_decide (sid ≠ []) then
       add_window sid w (set_render_unfocused_cursor 1 w st)
     else st) = child_writes st.
Proof. by case_bool_decide. Qed.

Lemma deliver_writes sid d ws st :
  (deliver sid (Some d) ws st).2 = inr ()
  ∧ child_writes (deliver sid (Some d) ws st).1
    = child_writes st ++ omap (write_for d) ws.
Proof.
  revert st. induction ws as [|w ws IH]; intros st.
  - simpl. by rewrite app_nil_r.
  - cbn [deliver omap list_omap].
    destruct d as [b|k]; cbn [write_for].
    + destruct (IH (write_to_child w b
                      (if bool_decide (sid ≠ []) then
                         add_window sid w (set_render_unfocused_cursor 1 w st)
                       else st))) as [-> ->].
      split; [done|]. cbn [write_to_child child_writes].
      rewrite child_writes_mark. by rewrite <- app_assoc.
    + destruct (encoded_key w k) as [|c kdata] eqn:Hk.
      * destruct (IH (if bool_decide (sid ≠ []) then
                        add_window sid w (set_render_unfocused_cursor 1 w st)
                      else st)) as [-> ->].
        by rewrite child_writes_mark.
      * destruct (IH (write_to_child w (c :: kdata)
                        (if bool_decide (sid ≠ []) then
                           add_window sid w (set_render_unfocused_cursor 1 w st)
                         else st))) as [-> ->].
        split; [done|]. cbn [write_to_child child_writes].
        rewrite child_writes_mark. by rewrite <- app_assoc.
Qed.

(** C6: with [exclude_active] set, the windows the handler acts on are the
    resolved windows without the active one, whichever branch resolved
    them; a payload that carries data is written to exactly those windows,
    in order. *)
Theorem exclude_active_dispatch (window : option N) (p : payload)
    (st : state) (windows : list (option N)) (d : data_value)
    (session : pystr) :
  p_exclude_active p = true →
  resolve_windows (boss st) p = inr windows →
  decode_data (p_data p) = inr (Some d, session) →
  actual_windows (boss st) (p_exclude_active p) windows
  = filter (λ w, Some w ≠ active_window (boss st)) (omap id windows)
  ∧ (response_from_kitty window p st).2 = inr ()
  ∧ child_writes (response_from_kitty window p st).1
    = child_writes st
      ++ omap (write_for d)
           (filter (λ w, Some w ≠ active_window (boss st)) (omap id windows)).
Proof.
  intros Hex Hres Hdec. rewrite Hex.
  split; [apply actual_windows_exclude|].
  unfold response_from_kitty. rewrite Hres, Hdec, Hex.
  rewrite (decode_data_assigned _ _ _ Hdec).
  case_decide; [discriminate|]. case_decide; [discriminate|].
  rewrite actual_windows_exclude.
  destruct (deliver_writes (default [] (p_session_id p)) d
              (filter (λ w, Some w ≠ active_window (boss st)) (omap id windows))
              (if bool_decide (default [] (p_session_id p) ≠ []) then
                 schedule (default [] (p_session_id p))
                   (create_or_update_session (default [] (p_session_id p)) st)
               else st)) as [-> ->].
  split; [done|]. f_equal.
  case_bool_decide; [|done].
  by rewrite child_writes_schedule, child_writes_create.
Qed.

(** *** The loops over the windows, field by field *)

Lemma state_eq (a b : state) :
  sessions_map a = sessions_map b → boss a = boss b →
  timers a = timers b →
  cursor_stop_blinking_after a = cursor_stop_blinking_after b →
  child_writes a = child_writes b → a = b.
Proof. destruct a, b; simpl; congruence. Qed.

(** Setting the flag of the windows of a list, seen from one window. *)
Lemma lookup_set_cursors (v : N) (ws : list N) (m : gmap N Window) (w : N) :
  foldl (λ m w, alter (set_cursor v) w m) m ws !! w
  = if decide (w ∈ ws) then set_cursor v <$> m !! w else m !! w.
Proof.
  revert m. induction ws as [|x ws IH]; intros m; [done|].
  simpl. rewrite IH. destruct (decide (x = w)) as [->|Hne].
  - rewrite lookup_alter_eq.
    destruct (decide (w ∈ ws)), (decide (w ∈ w :: ws)) as [|Hn];
      try (by destruct (m !! w)); exfalso; apply Hn; left.
  - rewrite lookup_alter_ne by done.
    destruct (decide (w ∈ ws)) as [Hin|Hnin],
             (decide (w ∈ x :: ws)) as [Hin'|Hnin']; try done.
    + exfalso. apply Hnin'. by right.
    + apply elem_of_cons in Hin' as [->|Hin']; done.
Qed.

(** Removing the windows of a list from, or adding them to, the member
    set of the session [sid], seen from one session id. *)
Lemma lookup_alter_members (g : gset N → N → gset N) (sid : pystr)
    (ws : list N) (m : gmap pystr Session) (k : pystr) :
  foldl (λ m w, alter (λ s, mkSession (sess_id s) (g (window_ids s) w)
                                      (timer_id s)) sid m) m ws !! k
  = if decide (k = sid)
    then (λ s, mkSession (sess_id s) (foldl g (window_ids s) ws)
                         (timer_id s)) <$> m !! k
    else m !! k.
Proof.
  revert m. induction ws as [|x ws IH]; intros m.
  - simpl. case_decide; [|done]. by destruct (m !! k) as [[]|].
  - simpl. rewrite IH. case_decide as Hk.
    + subst k. rewrite lookup_alter_eq. by destruct (m !! sid).
    + by rewrite lookup_alter_ne.
Qed.

Lemma foldl_discard_empty (ws : list N) :
  foldl (λ (X : gset N) w, X ∖ {[w]}) ∅ ws = ∅.
Proof.
  induction ws as [|w ws IH]; [done|].
  simpl. by rewrite empty_difference_L.
Qed.

Lemma create_unknown sid st :
  sessions_map st !! sid = None →
  create_or_update_session sid st
  = with_sessions <[sid := new_Session sid]> st.
Proof. intros Hs. unfold create_or_update_session. by rewrite Hs. Qed.

(** What a loop that sets the flag of every window of [ws], and updates
    the session [sid] for each, does to every field of the state. *)
Lemma session_loop_fields (g : Session → N → Session) (v : N) (sid : pystr)
    (ws : list N) (st : state) :
  let st' := foldl (λ st w, with_sessions (alter (λ s, g s w) sid)
                              (set_render_unfocused_cursor v w st)) st ws in
  sessions_map st'
  = foldl (λ m w, alter (λ s, g s w) sid m) (sessions_map st) ws
  ∧ boss st'
    = with_windows (λ m, foldl (λ m w, alter (set_cursor v) w m) m ws)
        (boss st)
  ∧ timers st' = timers st
  ∧ cursor_stop_blinking_after st' = cursor_stop_blinking_after st
  ∧ child_writes st' = child_writes st.
Proof.
  revert st. induction ws as [|w ws IH]; intros st.
  - cbn [foldl]. repeat split. by destruct (boss st).
  - cbn [foldl]. cbn zeta in IH.
    destruct (IH (with_sessions (alter (λ s, g s w) sid)
                    (set_render_unfocused_cursor v w st)))
      as (-> & -> & -> & -> & ->).
    done.
Qed.

Lemma cursor_loop_fields (v : N) (ws : list N) (st : state) :
  let st' := foldl (λ st w, set_render_unfocused_cursor v w st) st ws in
  sessions_map st' = sessions_map st
  ∧ boss st'
    = with_windows (λ m, foldl (λ m w, alter (set_cursor v) w m) m ws)
        (boss st)
  ∧ timers st' = timers st
  ∧ cursor_stop_blinking_after st' = cursor_stop_blinking_after st
  ∧ child_writes st' = child_writes st.
Proof.
  revert st. induction ws as [|w ws IH]; intros st.
  - cbn [foldl]. repeat split. by destruct (boss st).
  - cbn [foldl]. cbn zeta in IH.
    destruct (IH (set_render_unfocused_cursor v w st))
      as (-> & -> & -> & -> & ->).
    done.
Qed.

(** C4, as the code has it: an [end] control for a session id that
    [sessions_map] does not hold raises nothing and leaves [sessions_map],
    the timers and the writes as they were; the one change is that the flag
    [render_unfocused_cursor] of every window the request resolves to is
    cleared. *)
Theorem end_unknown_session (window : option N) (p : payload) (st : state)
    (windows : list (option N)) :
  p_data p = str "session:end" →
  sessions_map st !! default [] (p_session_id p) = None →
  resolve_windows (boss st) p = inr windows →
  response_from_kitty window p st
  = (foldl (λ st w, set_render_unfocused_cursor 0 w st) st
       (actual_windows (boss st) (p_exclude_active p) windows), inr ())
  ∧ sessions_map (response_from_kitty window p st).1 = sessions_map st
  ∧ timers (response_from_kitty window p st).1 = timers st
  ∧ child_writes (response_from_kitty window p st).1 = child_writes st
  ∧ ∀ w,
      window_id_map (boss (response_from_kitty window p st).1) !! w
      = if decide (w ∈ actual_windows (boss st) (p_exclude_active p) windows)
        then set_cursor 0 <$> window_id_map (boss st) !! w
        else window_id_map (boss st) !! w.
Proof.
  intros Hdata Hsid Hres.
  set (ws := actual_windows (boss st) (p_exclude_active p) windows).
  set (sid := default [] (p_session_id p)) in *.
  destruct (cursor_loop_fields 0 ws st) as (Hs & Hb & Ht & Ho & Hc).
  cbn zeta in *.
  set (final := foldl (λ st w, set_render_unfocused_cursor 0 w st) st ws) in *.
  assert (Hr : response_from_kitty window p st = (final, inr ())).
  { unfold response_from_kitty. rewrite Hres, Hdata.
    change (str "session:end") with (str "session:" ++ str "end").
    rewrite decode_session. rewrite decide_True by done.
    fold ws. fold sid. rewrite create_unknown by done. f_equal.
    destruct (session_loop_fields
                (λ s w, mkSession (sess_id s) (window_ids s ∖ {[w]})
                                  (timer_id s))
                0 sid ws (with_sessions <[sid := new_Session sid]> st))
      as (Hls & Hlb & Hlt & Hlo & Hlc).
    cbn zeta in *. unfold discard_window.
    set (loop := foldl _ (with_sessions _ st) ws) in *.
    unfold clear_unfocused_cursors.
    rewrite Hls, (lookup_alter_members (λ X w, X ∖ {[w]})).
    rewrite decide_True by done. cbn [with_sessions sessions_map].
    rewrite lookup_insert_eq.
    cbn [fmap option_fmap option_map new_Session window_ids].
    rewrite foldl_discard_empty, elements_empty. cbn [foldr].
    apply state_eq; cbn [with_sessions sessions_map boss timers
                           cursor_stop_blinking_after child_writes].
    - rewrite Hls, Hs. apply map_eq. intros k.
      cbn [with_sessions sessions_map].
      destruct (decide (k = sid)) as [->|Hk].
      + by rewrite lookup_delete_eq.
      + rewrite lookup_delete_ne by done.
        rewrite (lookup_alter_members (λ X w, X ∖ {[w]})).
        rewrite decide_False by done. by rewrite lookup_insert_ne.
    - by rewrite Hlb, Hb.
    - by rewrite Hlt, Ht.
    - by rewrite Hlo, Ho.
    - by rewrite Hlc, Hc. }
  rewrite Hr. repeat split; try done.
  intros w. cbn [fst]. rewrite Hb. cbn [with_windows window_id_map].
  apply lookup_set_cursors.
Qed.

(** *** The session operations, field by field *)

Lemma create_fields sid st :
  let s := default (new_Session sid) (sessions_map st !! sid) in
  let st' := create_or_update_session sid st in
  sessions_map st'
  = <[sid := mkSession (sess_id s) (window_ids s) 0]> (sessions_map st)
  ∧ boss st' = boss st
  ∧ active (timers st')
    = (if timer_id s =? 0 then active (timers st)
       else delete (timer_id s) (active (timers st)))
  ∧ last_timer_id (timers st') = last_timer_id (timers st)
  ∧ cursor_stop_blinking_after st' = cursor_stop_blinking_after st
  ∧ child_writes st' = child_writes st.
Proof.
  cbn zeta. unfold create_or_update_session.
  destruct (default (new_Session sid) (sessions_map st !! sid))
    as [i X t] eqn:Hs.
  cbn [timer_id sess_id window_ids].
  destruct (N.eqb_spec t 0) as [->|Ht]; repeat split.
Qed.

Lemma clear_fields sid st s :
  sessions_map st !! sid = Some s →
  let st' := clear_unfocused_cursors sid st in
  sessions_map st' = delete sid (sessions_map st)
  ∧ timers st' = timers st
  ∧ child_writes st' = child_writes st
  ∧ ∀ w, window_id_map (boss st') !! w
         = if decide (w ∈ window_ids s)
           then set_cursor 0 <$> window_id_map (boss st) !! w
           else window_id_map (boss st) !! w.
Proof.
  intros Hs. cbn zeta. unfold clear_unfocused_cursors. rewrite Hs.
  assert (Hl : ∀ l : list N,
    let st' := foldr (set_render_unfocused_cursor 0)
                 (with_sessions (delete sid) st) l in
    sessions_map st' = delete sid (sessions_map st)
    ∧ timers st' = timers st
    ∧ child_writes st' = child_writes st
    ∧ ∀ w, window_id_map (boss st') !! w
           = if decide (w ∈ l)
             then set_cursor 0 <$> window_id_map (boss st) !! w
             else window_id_map (boss st) !! w).
  { induction l as [|x l (IH1 & IH2 & IH3 & IH4)]; cbn zeta in *.
    - repeat split.
    - cbn [foldr]. repeat split; try done. intros w.
      cbn [set_render_unfocused_cursor with_boss boss with_windows
             window_id_map].
      destruct (decide (x = w)) as [->|Hne].
      + rewrite lookup_alter_eq, IH4.
        rewrite (decide_True (P := w ∈ w :: l)) by left.
        case_decide; [|done]. by destruct (window_id_map (boss st) !! w).
      + rewrite lookup_alter_ne, IH4 by done.
        destruct (decide (w ∈ l)) as [Hin|Hnin],
                 (decide (w ∈ x :: l)) as [Hin'|Hnin']; try done.
        * exfalso. apply Hnin'. by right.
        * apply elem_of_cons in Hin' as [->|Hin']; done. }
  destruct (Hl (elements (window_ids s))) as (H1 & H2 & H3 & H4).
  cbn zeta in *. repeat split; try done.
  intros w. rewrite H4.
  destruct (decide (w ∈ elements (window_ids s))) as [Hin|Hnin],
           (decide (w ∈ window_ids s)) as [Hin'|Hnin']; try done.
  - apply elem_of_elements in Hin. done.
  - apply elem_of_elements in Hin'. done.
Qed.

Lemma blink_time_ext st st' :
  cursor_stop_blinking_after st' = cursor_stop_blinking_after st →
  blink_time st' = blink_time st.
Proof. intros Heq. unfold blink_time. by rewrite Heq. Qed.

(** What a [start] control does. *)
Lemma start_fields (window : option N) (p : payload) (st : state)
    (windows : list (option N)) (data : option data_value) :
  decode_data (p_data p) = inr (data, str "start") →
  resolve_windows (boss st) p = inr windows →
  let sid := default [] (p_session_id p) in
  let ws := actual_windows (boss st) (p_exclude_active p) windows in
  let s := default (new_Session sid) (sessions_map st !! sid) in
  let tid := N.succ (last_timer_id (timers st)) in
  let st1 := (response_from_kitty window p st).1 in
  (response_from_kitty window p st).2 = inr ()
  ∧ sessions_map st1
    = <[sid := mkSession (sess_id s)
                 (foldl (λ X w, X ∪ {[w]}) (window_ids s) ws) tid]>
        (sessions_map st)
  ∧ active (timers st1)
    = <[tid := mkTimer sid (blink_time st) false]>
        (if timer_id s =? 0 then active (timers st)
         else delete (timer_id s) (active (timers st)))
  ∧ last_timer_id (timers st1) = tid
  ∧ child_writes st1 = child_writes st
  ∧ all_windows (boss st1) = all_windows (boss st)
  ∧ active_window (boss st1) = active_window (boss st)
  ∧ match_windows (boss st1) = match_windows (boss st)
  ∧ match_tabs (boss st1) = match_tabs (boss st)
  ∧ ∀ w, render_unfocused_cursor <$> window_id_map (boss st1) !! w
         = if decide (w ∈ ws)
           then (λ _, 1) <$> window_id_map (boss st) !! w
           else render_unfocused_cursor <$> window_id_map (boss st) !! w.
Proof.
  intros Hdata Hres. cbn zeta.
  set (sid := default [] (p_session_id p)).
  set (ws := actual_windows (boss st) (p_exclude_active p) windows).
  unfold response_from_kitty. rewrite Hres, Hdata.
  rewrite decide_False by discriminate. rewrite decide_True by done.
  fold sid. fold ws. cbn [fst snd].
  destruct (create_fields sid st) as (Hcs & Hcb & Hca & Hcl & Hco & Hcw).
  cbn zeta in *.
  set (s := default (new_Session sid) (sessions_map st !! sid)) in *.
  set (A := create_or_update_session sid st) in *.
  set (B := match window with
            | Some w0 =>
                with_boss (with_windows (alter (add_action_on_close sid) w0)) A
            | None => A
            end).
  assert (HB : sessions_map B = sessions_map A ∧ timers B = timers A
               ∧ cursor_stop_blinking_after B = cursor_stop_blinking_after A
               ∧ child_writes B = child_writes A
               ∧ all_windows (boss B) = all_windows (boss A)
               ∧ active_window (boss B) = active_window (boss A)
               ∧ match_windows (boss B) = match_windows (boss A)
               ∧ match_tabs (boss B) = match_tabs (boss A)
               ∧ ∀ w, render_unfocused_cursor <$> window_id_map (boss B) !! w
                      = render_unfocused_cursor <$> window_id_map (boss A) !! w).
  { subst B. destruct window as [w0|]; repeat split; try done.
    intros w. cbn [with_boss boss with_windows window_id_map].
    destruct (decide (w0 = w)) as [->|Hne].
    - rewrite lookup_alter_eq. by destruct (window_id_map (boss A) !! w).
    - by rewrite lookup_alter_ne. }
  destruct HB as (HBs & HBt & HBo & HBw & HB1 & HB2 & HB3 & HB4 & HB5).
  destruct (session_loop_fields
              (λ s w, mkSession (sess_id s) (window_ids s ∪ {[w]}) (timer_id s))
              1 sid ws (schedule sid B)) as (Hls & Hlb & Hlt & Hlo & Hlc).
  cbn zeta in *. unfold add_window.
  set (L := foldl _ (schedule sid B) ws) in *.
  split; [done|]. split.
  { rewrite Hls. apply map_eq. intros k.
    rewrite (lookup_alter_members (λ X w, X ∪ {[w]})).
    cbn [schedule add_timer with_sessions sessions_map with_timers].
    destruct (decide (k = sid)) as [->|Hk].
    - rewrite lookup_alter_eq, lookup_insert_eq, HBs, Hcs, lookup_insert_eq.
      cbn [fmap option_fmap option_map sess_id window_ids timer_id].
      by rewrite HBt, Hcl.
    - rewrite lookup_alter_ne, lookup_insert_ne, HBs, Hcs by done.
      by rewrite lookup_insert_ne. }
  split.
  { rewrite Hlt. cbn [schedule add_timer with_sessions with_timers timers active].
    rewrite HBt, Hcl, Hca. f_equal. f_equal.
    apply blink_time_ext. by rewrite HBo. }
  split; [by rewrite Hlt; cbn; rewrite HBt, Hcl|].
  split; [by rewrite Hlc; cbn; rewrite HBw|].
  rewrite Hlb. cbn [with_windows all_windows active_window match_windows
                      match_tabs window_id_map schedule with_sessions
                      with_timers boss add_timer].
  rewrite HB1, HB2, HB3, HB4, Hcb. repeat split.
  intros w. rewrite lookup_set_cursors.
  specialize (HB5 w). rewrite Hcb in HB5.
  case_decide; [|done].
  by destruct (window_id_map (boss B) !! w),
              (window_id_map (boss st) !! w).
Qed.

Lemma elem_of_foldl_add (X : gset N) (ws : list N) (w : N) :
  w ∈ foldl (λ (X : gset N) w, X ∪ {[w]}) X ws ↔ w ∈ X ∨ w ∈ ws.
Proof.
  revert X. induction ws as [|x ws IH]; intros X; simpl.
  - rewrite elem_of_nil. tauto.
  - rewrite IH, elem_of_union, elem_of_singleton, elem_of_cons. tauto.
Qed.

Lemma elem_of_foldl_discard (X : gset N) (ws : list N) (w : N) :
  w ∈ foldl (λ (X : gset N) w, X ∖ {[w]}) X ws ↔ w ∈ X ∧ w ∉ ws.
Proof.
  revert X. induction ws as [|x ws IH]; intros X; simpl.
  - rewrite elem_of_nil. tauto.
  - rewrite IH, elem_of_difference, elem_of_singleton, not_elem_of_cons.
    tauto.
Qed.

(** What an [end] control does. *)
Lemma end_fields (window : option N) (p : payload) (st : state)
    (windows : list (option N)) (data : option data_value) :
  decode_data (p_data p) = inr (data, str "end") →
  resolve_windows (boss st) p = inr windows →
  let sid := default [] (p_session_id p) in
  let ws := actual_windows (boss st) (p_exclude_active p) windows in
  let s := default (new_Session sid) (sessions_map st !! sid) in
  let st2 := (response_from_kitty window p st).1 in
  (response_from_kitty window p st).2 = inr ()
  ∧ sessions_map st2 = delete sid (sessions_map st)
  ∧ active (timers st2)
    = (if timer_id s =? 0 then active (timers st)
       else delete (timer_id s) (active (timers st)))
  ∧ last_timer_id (timers st2) = last_timer_id (timers st)
  ∧ child_writes st2 = child_writes st
  ∧ ∀ w, render_unfocused_cursor <$> window_id_map (boss st2) !! w
         = if decide (w ∈ ws ∨ w ∈ window_ids s)
           then (λ _, 0) <$> window_id_map (boss st) !! w
           else render_unfocused_cursor <$> window_id_map (boss st) !! w.
Proof.
  intros Hdata Hres. cbn zeta.
  set (sid := default [] (p_session_id p)).
  set (ws := actual_windows (boss st) (p_exclude_active p) windows).
  unfold response_from_kitty. rewrite Hres, Hdata.
  rewrite decide_True by done.
  fold sid. fold ws. cbn [fst snd].
  destruct (create_fields sid st) as (Hcs & Hcb & Hca & Hcl & Hco & Hcw).
  cbn zeta in *.
  set (s := default (new_Session sid) (sessions_map st !! sid)) in *.
  set (A := create_or_update_session sid st) in *.
  destruct (session_loop_fields
              (λ s w, mkSession (sess_id s) (window_ids s ∖ {[w]}) (timer_id s))
              0 sid ws A) as (Hls & Hlb & Hlt & Hlo & Hlc).
  cbn zeta in *. unfold discard_window.
  set (L := foldl _ A ws) in *.
  assert (HL : sessions_map L !! sid
               = Some (mkSession (sess_id s)
                         (foldl (λ X w, X ∖ {[w]}) (window_ids s) ws) 0)).
  { rewrite Hls, (lookup_alter_members (λ X w, X ∖ {[w]})).
    rewrite decide_True by done. by rewrite Hcs, lookup_insert_eq. }
  destruct (clear_fields sid L _ HL) as (Hgs & Hgt & Hgw & Hgm).
  cbn zeta in *. split; [done|]. split.
  { rewrite Hgs, Hls. apply map_eq. intros k.
    destruct (decide (k = sid)) as [->|Hk].
    - by rewrite !lookup_delete_eq.
    - rewrite !lookup_delete_ne by done.
      rewrite (lookup_alter_members (λ X w, X ∖ {[w]})).
      rewrite decide_False by done. by rewrite Hcs, lookup_insert_ne. }
  split; [by rewrite Hgt, Hlt|]. split; [by rewrite Hgt, Hlt|].
  split; [by rewrite Hgw, Hlc|].
  intros w. rewrite Hgm, Hlb.
  cbn [with_windows window_id_map window_ids].
  rewrite lookup_set_cursors, Hcb.
  destruct (decide (w ∈ foldl (λ X w, X ∖ {[w]}) (window_ids s) ws))
    as [Hin|Hnin].
  - apply elem_of_foldl_discard in Hin as [HX Hws].
    rewrite decide_False by done. rewrite decide_True by by right.
    by destruct (window_id_map (boss st) !! w).
  - destruct (decide (w ∈ ws)) as [Hws|Hws].
    + rewrite decide_True by by left.
      by destruct (window_id_map (boss st) !! w).
    + rewrite decide_False; [done|]. intros [?|HX]; [done|].
      apply Hnin. by apply elem_of_foldl_discard.
Qed.

(** X22: from a state in which every timer outstanding for the session id
    is the one recorded in its session, a [start] control for the id
    followed by an [end] control for the same id that resolves to the same
    windows: neither raises; the session the [start] leaves has every
    resolved window as a member; after the [end], every member window has
    its flag cleared, [sessions_map] holds nothing under the id, and no
    timer is outstanding for the id. *)
Theorem start_then_end (window1 window2 : option N) (p1 p2 : payload)
    (st : state) (windows1 windows2 : list (option N)) :
  let sid := default [] (p_session_id p1) in
  let st1 := (response_from_kitty window1 p1 st).1 in
  let st2 := (response_from_kitty window2 p2 st1).1 in
  let ws := actual_windows (boss st) (p_exclude_active p1) windows1 in
  p_data p1 = str "session:start" →
  p_data p2 = str "session:end" →
  default [] (p_session_id p2) = sid →
  resolve_windows (boss st) p1 = inr windows1 →
  resolve_windows (boss st1) p2 = inr windows2 →
  actual_windows (boss st1) (p_exclude_active p2) windows2 = ws →
  timers_recorded sid st →
  (response_from_kitty window1 p1 st).2 = inr ()
  ∧ (response_from_kitty window2 p2 st1).2 = inr ()
  ∧ (∃ s1, sessions_map st1 !! sid = Some s1
           ∧ Forall (λ w, w ∈ window_ids s1) ws
           ∧ ∀ w win, w ∈ window_ids s1 →
               window_id_map (boss st2) !! w = Some win →
               render_unfocused_cursor win = 0)
  ∧ sessions_map st2 !! sid = None
  ∧ outstanding sid st2 = ∅.
Proof.
  cbn zeta. intros Hd1 Hd2 Hsid Hr1 Hr2 Hws Hrec.
  destruct (start_fields window1 p1 st windows1 None (decode_start _ Hd1) Hr1)
    as (Ho1 & Hs1 & Ha1 & Hl1 & _).
  cbn zeta in *.
  destruct (end_fields window2 p2 _ windows2 None (decode_end _ Hd2) Hr2)
    as (Ho2 & Hs2 & Ha2 & _ & _ & Hm2).
  cbn zeta in *. rewrite Hsid, Hws in *.
  set (sid := default [] (p_session_id p1)) in *.
  set (ws := actual_windows (boss st) (p_exclude_active p1) windows1) in *.
  set (st1 := (response_from_kitty window1 p1 st).1) in *.
  set (st2 := (response_from_kitty window2 p2 st1).1) in *.
  set (s := default (new_Session sid) (sessions_map st !! sid)) in *.
  set (tid := N.succ (last_timer_id (timers st))) in *.
  rewrite Hs1, lookup_insert_eq in Ha2, Hm2.
  cbn [default from_option id timer_id window_ids] in Ha2, Hm2.
  split; [done|]. split; [done|]. split.
  { eexists. split; [by rewrite Hs1, lookup_insert_eq|].
    cbn [window_ids]. split.
    - apply Forall_forall. intros w Hw. apply elem_of_foldl_add.
      right. by apply list_elem_of_In.
    - intros w win Hw Hlook. specialize (Hm2 w).
      rewrite decide_True in Hm2 by by right.
      rewrite Hlook in Hm2. cbn in Hm2.
      destruct (window_id_map (boss st1) !! w); cbn in Hm2; congruence. }
  split; [by rewrite Hs2, lookup_delete_eq|].
  unfold outstanding. apply map_empty_filter.
  intros k t Hk Hcb. cbn [snd] in Hcb. rewrite Ha2 in Hk.
  destruct (N.eqb_spec tid 0) as [Hz|_]; [subst tid; lia|].
  rewrite Ha1 in Hk.
  destruct (decide (k = tid)) as [->|Hne];
    [by rewrite lookup_delete_eq in Hk|].
  rewrite lookup_delete_ne, lookup_insert_ne in Hk by done.
  assert (Hk' : active (timers st) !! k = Some t).
  { destruct (timer_id s =? 0); [done|].
    apply lookup_delete_Some in Hk. tauto. }
  destruct (Hrec k t Hk' Hcb) as (Hk0 & s' & Hs' & Hts').
  subst s. rewrite Hs' in Hk. cbn [default from_option id] in Hk.
  rewrite Hts' in Hk.
  destruct (N.eqb_spec k 0) as [|_]; [done|].
  by rewrite lookup_delete_eq in Hk.
Qed.

(** *** One timer per session, as long as no window is closed *)

Lemma timers_ok_recorded st sid : timers_ok st → timers_recorded sid st.
Proof.
  intros Hok tid t Hk Hcb. destruct (Hok tid t Hk) as (H0 & _ & s & Hs & Ht).
  rewrite Hcb in Hs. eauto.
Qed.

(** After [create_or_update_session] no timer is left for the session. *)
Lemma cancelled_none sid st k t :
  timers_ok st →
  (if timer_id (default (new_Session sid) (sessions_map st !! sid)) =? 0
   then active (timers st)
   else delete (timer_id (default (new_Session sid) (sessions_map st !! sid)))
          (active (timers st))) !! k = Some t →
  active (timers st) !! k = Some t ∧ callback t ≠ sid.
Proof.
  intros Hok Hk.
  assert (Hk' : active (timers st) !! k = Some t).
  { destruct (_ =? 0); [done|]. apply lookup_delete_Some in Hk. tauto. }
  split; [done|]. intros Hcb.
  destruct (Hok k t Hk') as (Hk0 & _ & s & Hs & Hts).
  rewrite Hcb in Hs. rewrite Hs in Hk. cbn [default from_option id] in Hk.
  rewrite Hts in Hk. destruct (N.eqb_spec k 0) as [|_]; [done|].
  by rewrite lookup_delete_eq in Hk.
Qed.

(** The shape of the state after [create_or_update_session] and a new
    timer, up to the fields the invariant looks at. *)
Lemma rescheduled_ok sid st st' iv :
  timers_ok st →
  (∀ k, timer_id <$> sessions_map st' !! k
        = if decide (k = sid) then Some (N.succ (last_timer_id (timers st)))
          else timer_id <$> sessions_map st !! k) →
  active (timers st')
  = <[N.succ (last_timer_id (timers st)) := mkTimer sid iv false]>
      (if timer_id (default (new_Session sid) (sessions_map st !! sid)) =? 0
       then active (timers st)
       else delete (timer_id (default (new_Session sid) (sessions_map st !! sid)))
              (active (timers st))) →
  timers_ok st'.
Proof.
  intros Hok Hs Ha k t Hk. rewrite Ha in Hk.
  destruct (decide (k = N.succ (last_timer_id (timers st)))) as [->|Hne].
  - rewrite lookup_insert_eq in Hk. injection Hk as <-.
    split; [lia|]. split; [done|]. cbn [callback].
    specialize (Hs sid). rewrite decide_True in Hs by done.
    destruct (sessions_map st' !! sid) as [s|]; [|done].
    injection Hs as Hs. eauto.
  - rewrite lookup_insert_ne in Hk by done.
    apply cancelled_none in Hk as [Hk Hcb]; [|done].
    destruct (Hok k t Hk) as (Hk0 & Hrep & s & Hsm & Hts).
    split; [done|]. split; [done|].
    specialize (Hs (callback t)). rewrite decide_False in Hs by done.
    rewrite Hsm in Hs.
    destruct (sessions_map st' !! callback t) as [s'|]; [|done].
    injection Hs as Hs. exists s'. split; [done|]. congruence.
Qed.

Lemma deliver_fields sid data ws st :
  timers (deliver sid data ws st).1 = timers st
  ∧ ∀ k, timer_id <$> sessions_map (deliver sid data ws st).1 !! k
         = timer_id <$> sessions_map st !! k.
Proof.
  revert st. induction ws as [|w ws IH]; intros st; [done|].
  cbn [deliver].
  set (st' := if bool_decide (sid ≠ []) then _ else st).
  assert (Hst' : timers st' = timers st
                 ∧ ∀ k, timer_id <$> sessions_map st' !! k
                        = timer_id <$> sessions_map st !! k).
  { subst st'. case_bool_decide; [|done]. split; [done|]. intros k.
    cbn [add_window with_sessions sessions_map set_render_unfocused_cursor
           with_boss].
    destruct (decide (sid = k)) as [->|Hne].
    - rewrite lookup_alter_eq. by destruct (sessions_map st !! k).
    - by rewrite lookup_alter_ne. }
  destruct Hst' as [Ht Hs].
  destruct data as [[b|key]|]; [| |done].
  - destruct (IH (write_to_child w b st')) as [-> IHs]. split; [done|].
    intros k. by rewrite IHs.
  - destruct (encoded_key w key) as [|c kdata].
    + destruct (IH st') as [-> IHs]. split; [done|].
      intros k. by rewrite IHs.
    + destruct (IH (write_to_child w (c :: kdata) st')) as [-> IHs].
      split; [done|]. intros k. by rewrite IHs.
Qed.

(** Handling a request keeps the invariant. *)
Lemma request_timers_ok (window : option N) (p : payload) (st : state) :
  timers_ok st → timers_ok (response_from_kitty window p st).1.
Proof.
  intros Hok.
  destruct (resolve_windows (boss st) p) as [e|windows] eqn:Hres;
    [by unfold response_from_kitty; rewrite Hres|].
  destruct (decode_data (p_data p)) as [e|[data session]] eqn:Hdec;
    [by unfold response_from_kitty; rewrite Hres, Hdec|].
  destruct (decide (session = str "end")) as [->|Hend];
    [|destruct (decide (session = str "start")) as [->|Hstart]].
  - (* end *)
  destruct (end_fields window p st windows data Hdec Hres)
    as (_ & Hs & Ha & _).
  cbn zeta in *.
  intros k t Hk. rewrite Ha in Hk.
  apply cancelled_none in Hk as [Hk Hcb]; [|done].
  destruct (Hok k t Hk) as (Hk0 & Hrep & s & Hsm & Hts).
  split; [done|]. split; [done|]. exists s.
  by rewrite Hs, lookup_delete_ne.
- (* start *)
  destruct (start_fields window p st windows data Hdec Hres)
    as (_ & Hs & Ha & _).
  cbn zeta in *.
  eapply rescheduled_ok; [done| |exact Ha].
  intros k. rewrite Hs. case_decide as Hk.
  + subst k. by rewrite lookup_insert_eq.
  + by rewrite lookup_insert_ne.
- (* data, with or without a session id *)
    unfold response_from_kitty. rewrite Hres, Hdec.
    rewrite decide_False by done. rewrite decide_False by done.
    set (sid := default [] (p_session_id p)).
    set (ws := actual_windows _ _ _).
    set (st' := if bool_decide (sid ≠ []) then _ else st).
    destruct (deliver_fields sid data ws st') as [Ht Hs].
    assert (Hok' : timers_ok st').
    { subst st'. case_bool_decide; [|done].
      destruct (create_fields sid st) as (Hcs & _ & Hca & Hcl & _).
      cbn zeta in *.
      eapply (rescheduled_ok sid st _ (blink_time (create_or_update_session sid st)));
        [done| |].
      - intros k.
        cbn [schedule add_timer with_sessions sessions_map with_timers].
        rewrite Hcl. destruct (decide (k = sid)) as [->|Hk].
        + by rewrite lookup_alter_eq, Hcs, lookup_insert_eq.
        + by rewrite lookup_alter_ne, Hcs, lookup_insert_ne.
      - cbn [schedule add_timer with_sessions with_timers timers active].
        by rewrite Hcl, Hca. }
    intros k t Hk. rewrite Ht in Hk.
    destruct (Hok' k t Hk) as (Hk0 & Hrep & s & Hsm & Hts).
    split; [done|]. split; [done|].
    specialize (Hs (callback t)). rewrite Hsm in Hs.
    destruct (sessions_map _ !! callback t) as [s'|]; [|done].
    injection Hs as Hs. exists s'. split; [done|]. congruence.
Qed.

(** The expiry of a timer keeps the invariant. *)
Lemma fire_timers_ok (tid : N) (st : state) :
  timers_ok st → timers_ok (fire_timer tid st).
Proof.
  intros Hok. unfold fire_timer.
  destruct (active (timers st) !! tid) as [t|] eqn:Htid; [|done].
  destruct (Hok tid t Htid) as (Ht0 & Hrep & s & Hsm & Hts).
  rewrite Hrep.
  destruct (clear_fields (callback t) (with_timers (remove_timer tid) st) s Hsm)
    as (Hs & Ht & _).
  cbn zeta in *. intros k t' Hk. rewrite Ht in Hk.
  cbn [with_timers timers remove_timer active] in Hk.
  apply lookup_delete_Some in Hk as [Hne Hk].
  destruct (Hok k t' Hk) as (Hk0 & Hrep' & s' & Hsm' & Hts').
  split; [done|]. split; [done|]. exists s'. split; [|done].
  rewrite Hs. cbn [with_timers sessions_map].
  rewrite lookup_delete_ne; [done|]. intros Hcb.
  rewrite Hcb in Hsm. congruence.
Qed.

(** Under the invariant a session has at most one outstanding timer. *)
Lemma timers_ok_unique st sid k1 k2 t1 t2 :
  timers_ok st →
  outstanding sid st !! k1 = Some t1 →
  outstanding sid st !! k2 = Some t2 → k1 = k2.
Proof.
  intros Hok H1 H2. unfold outstanding in *.
  apply map_lookup_filter_Some in H1 as [H1 Hc1].
  apply map_lookup_filter_Some in H2 as [H2 Hc2]. cbn [snd] in *.
  destruct (Hok k1 t1 H1) as (_ & _ & s1 & Hs1 & <-).
  destruct (Hok k2 t2 H2) as (_ & _ & s2 & Hs2 & <-).
  congruence.
Qed.

Lemma timers_ok_at_most_one st sid :
  timers_ok st → (size (outstanding sid st) ≤ 1)%nat.
Proof.
  intros Hok. pose proof (timers_ok_unique st sid) as Hu.
  destruct (outstanding sid st) as [|k t m Hk _] using map_ind.
  - rewrite map_size_empty. lia.
  - rewrite map_size_insert_None by done.
    destruct m as [|k' t' m Hk' _] using map_ind.
    + rewrite map_size_empty. lia.
    + exfalso. assert (Hne : k ≠ k').
      { intros ->. by rewrite lookup_insert_eq in Hk. }
      apply Hne, (Hu k k' t t' Hok).
      * by rewrite lookup_insert_eq.
      * rewrite lookup_insert_ne by done. by rewrite lookup_insert_eq.
Qed.

Lemma run_timers_ok (evs : list event) (st : state) :
  no_window_closes evs → timers_ok st → timers_ok (foldl step st evs).
Proof.
  intros Hevs. revert st. induction Hevs as [|ev evs Hev _ IH]; intros st Hok;
    [done|].
  cbn [foldl]. apply IH. destruct ev as [window p|tid|w]; [| |done].
  - by apply request_timers_ok.
  - by apply fire_timers_ok.
Qed.

(** X20: as long as no window is closed, no session ever has two
    outstanding timers: in every state that requests and timer expiries lead
    to from a host without timers, a session id has at most one. *)
Lemma one_timer_without_close (evs : list event) (st : state) (sid : pystr) :
  active (timers st) = ∅ →
  no_window_closes evs →
  (size (outstanding sid (foldl step st evs)) ≤ 1)%nat.
Proof.
  intros Hempty Hevs. apply timers_ok_at_most_one, run_timers_ok; [done|].
  intros k t Hk. by rewrite Hempty in Hk.
Qed.

(** X19: two [start] controls in a row for one session id leave exactly
    one timer outstanding for it, when every session knew its timer
    before. *)
Lemma two_starts_one_timer (window1 window2 : option N) (p1 p2 : payload)
    (st : state) (windows1 windows2 : list (option N)) :
  let sid := default [] (p_session_id p1) in
  let st1 := (response_from_kitty window1 p1 st).1 in
  let st2 := (response_from_kitty window2 p2 st1).1 in
  timers_ok st →
  p_data p1 = str "session:start" →
  p_data p2 = str "session:start" →
  default [] (p_session_id p2) = sid →
  resolve_windows (boss st) p1 = inr windows1 →
  resolve_windows (boss st1) p2 = inr windows2 →
  size (outstanding sid st2) = 1%nat.
Proof.
  cbn zeta. intros Hok Hd1 Hd2 Hsid Hr1 Hr2.
  pose proof (request_timers_ok window1 p1 st Hok) as Hok1.
  pose proof (request_timers_ok window2 p2 _ Hok1) as Hok2.
  pose proof (timers_ok_at_most_one _ (default [] (p_session_id p1)) Hok2)
    as Hle.
  destruct (start_fields window2 p2 _ windows2 None (decode_start _ Hd2) Hr2)
  as (_ & _ & Ha & _).
  cbn zeta in Ha. rewrite Hsid in Ha.
  set (st2 := (response_from_kitty window2 p2 _).1) in *.
  assert (Hin : is_Some (outstanding (default [] (p_session_id p1)) st2
                         !! N.succ (last_timer_id
                              (timers (response_from_kitty window1 p1 st).1)))).
  { eexists. unfold outstanding. apply map_lookup_filter_Some.
    split; [by rewrite Ha, lookup_insert_eq|]. done. }
  destruct Hin as [t Hin].
  remember (outstanding (default [] (p_session_id p1)) st2) as m eqn:Hm.
  clear Hm. destruct m as [|k t' m Hk _] using map_ind.
  - by rewrite lookup_empty in Hin.
  - rewrite map_size_insert_None in * by done. lia.
Qed.

End HostProps.

(** C6 at the example of the spec: [all] and [exclude_active] set, windows
    1 (active), 2 and 3: the text goes to 2 and 3. *)
Lemma exclude_active_dispatch_witness :
  SendText.child_writes
    (@SendText.response_from_kitty Demo.lib None
       (Demo.to_all true (str "text:hi") None) Demo.st0).1
  = [(2, str "hi"); (3, str "hi")].
Proof.
  destruct (@exclude_active_dispatch Demo.lib None
              (Demo.to_all true (str "text:hi") None) Demo.st0
              [Some 1; Some 2; Some 3] (SendText.Bytes (str "hi")) []
              eq_refl eq_refl eq_refl) as (_ & _ & ->).
  vm_compute. reflexivity.
Defined.

Example st_live_reached :
  (@SendText.response_from_kitty Demo.lib None
     (Demo.to_all false (str "session:start") (Some (str "a"))) Demo.st0).1
  = Demo.st_live.
Proof. vm_compute. reflexivity. Qed.

(** C4 as stated fails: while the session [a] is live on window 1, an [end]
    control for the unknown session id [b] that resolves to window 1 raises
    nothing, but clears the flag of window 1. *)
Lemma end_unknown_not_noop :
  SendText.sessions_map Demo.st_live !! str "b" = None
  ∧ (@SendText.response_from_kitty Demo.lib None
       (Demo.to_all false (str "session:end") (Some (str "b"))) Demo.st_live).2
    = inr ()
  ∧ SendText.render_unfocused_cursor <$>
      SendText.window_id_map (SendText.boss Demo.st_live) !! 1 = Some 1
  ∧ SendText.render_unfocused_cursor <$>
      SendText.window_id_map
        (SendText.boss
           (@SendText.response_from_kitty Demo.lib None
              (Demo.to_all false (str "session:end") (Some (str "b")))
              Demo.st_live).1) !! 1 = Some 0
  ∧ (@SendText.response_from_kitty Demo.lib None
       (Demo.to_all false (str "session:end") (Some (str "b"))) Demo.st_live).1
    ≠ Demo.st_live.
Proof.
  assert (Hflag : SendText.render_unfocused_cursor <$>
            SendText.window_id_map
              (SendText.boss
                 (@SendText.response_from_kitty Demo.lib None
                    (Demo.to_all false (str "session:end") (Some (str "b")))
                    Demo.st_live).1) !! 1 = Some 0)
    by (vm_compute; reflexivity).
  split; [vm_compute; reflexivity|]. split; [vm_compute; reflexivity|].
  split; [vm_compute; reflexivity|]. split; [exact Hflag|].
  intros Heq. rewrite Heq in Hflag. vm_compute in Hflag. discriminate.
Qed.

(** C4, as the code has it, at the same request. *)
Lemma end_unknown_session_witness :
  SendText.sessions_map
    (@SendText.response_from_kitty Demo.lib None
       (Demo.to_all false (str "session:end") (Some (str "b"))) Demo.st_live).1
  = SendText.sessions_map Demo.st_live
  ∧ SendText.timers
      (@SendText.response_from_kitty Demo.lib None
         (Demo.to_all false (str "session:end") (Some (str "b")))
         Demo.st_live).1
    = SendText.timers Demo.st_live.
Proof.
  destruct (@end_unknown_session Demo.lib None
              (Demo.to_all false (str "session:end") (Some (str "b")))
              Demo.st_live [Some 1; Some 2; Some 3] eq_refl eq_refl eq_refl)
    as (_ & Hs & Ht & _).
  split; [exact Hs|exact Ht].
Defined.

(** X22 at the live session [a]: it is started again on all windows, then
    ended on all windows. *)
Lemma start_then_end_witness :
  SendText.sessions_map
    (@SendText.response_from_kitty Demo.lib None
       (Demo.to_all false (str "session:end") (Some (str "a")))
       (@SendText.response_from_kitty Demo.lib None
          (Demo.to_all false (str "session:start") (Some (str "a")))
          Demo.st_live).1).1 !! str "a" = None
  ∧ SendText.outstanding (str "a")
      (@SendText.response_from_kitty Demo.lib None
         (Demo.to_all false (str "session:end") (Some (str "a")))
         (@SendText.response_from_kitty Demo.lib None
            (Demo.to_all false (str "session:start") (Some (str "a")))
            Demo.st_live).1).1 = ∅.
Proof.
  assert (Hrec : SendText.timers_recorded (str "a") Demo.st_live).
  { intros tid t Hk _.
    change (({[ 1 := SendText.mkTimer (str "a") (Qc_of_Z 15) false ]}
               : gmap N SendText.Timer) !! tid = Some t) in Hk.
    apply lookup_singleton_Some in Hk as [<- <-].
    split; [done|].
    exists (SendText.mkSession (str "a") {[1; 2; 3]} 1). by split. }
  destruct (@start_then_end Demo.lib None None
              (Demo.to_all false (str "session:start") (Some (str "a")))
              (Demo.to_all false (str "session:end") (Some (str "a")))
              Demo.st_live [Some 1; Some 2; Some 3] [Some 1; Some 2; Some 3]
              eq_refl eq_refl eq_refl eq_refl eq_refl eq_refl Hrec)
    as (_ & _ & _ & Hs & Ht).
  split; [exact Hs|exact Ht].
Defined.

(** C2 fails on this run: once window 1, from which the session [s] was
    started, is closed, [sessions_map] no longer holds [s] but its timer is
    still outstanding; the next [start] for [s] finds no session object, so
    cancels nothing, and schedules a second timer. *)
Lemma restart_after_close_two_timers :
  let st2 := foldl (@SendText.step Demo.lib) Demo.st0
               (take 2 Demo.restart_after_close) in
  let st3 := foldl (@SendText.step Demo.lib) Demo.st0
               Demo.restart_after_close in
  SendText.sessions_map st2 !! str "s" = None
  ∧ SendText.outstanding (str "s") st2
    = {[ 1 := SendText.mkTimer (str "s") (Qc_of_Z 15) false ]}
  ∧ SendText.outstanding (str "s") st3
    = {[ 1 := SendText.mkTimer (str "s") (Qc_of_Z 15) false;
         2 := SendText.mkTimer (str "s") (Qc_of_Z 15) false ]}
  ∧ size (SendText.outstanding (str "s") st3) = 2%nat.
Proof. vm_compute. repeat split. Qed.

(** C3 fails on this run: the session [s] is started from window 1 on all
    windows and window 1 is closed; then [s] is started on window 2 and
    ended on window 2.  Both controls return normally and resolve to the
    same window; after the [end] the flag of window 2 is cleared and
    [sessions_map] holds nothing under [s], but the timer of the session
    that the closing of window 1 purged is still outstanding for [s]. *)
Lemma start_end_after_close_leaves_timer :
  let st := foldl (@SendText.step Demo.lib) Demo.st0
              (take 2 Demo.start_end_after_close) in
  let r1 := @SendText.response_from_kitty Demo.lib None Demo.start_on_2 st in
  let r2 := @SendText.response_from_kitty Demo.lib None Demo.end_on_2 r1.1 in
  r2.1 = foldl (@SendText.step Demo.lib) Demo.st0 Demo.start_end_after_close
  ∧ r1.2 = inr () ∧ r2.2 = inr ()
  ∧ SendText.resolve_windows (SendText.boss st) Demo.start_on_2
    = inr [Some 2]
  ∧ SendText.resolve_windows (SendText.boss r1.1) Demo.end_on_2
    = inr [Some 2]
  ∧ SendText.window_ids <$> SendText.sessions_map r1.1 !! str "s"
    = Some {[ 2 ]}
  ∧ SendText.render_unfocused_cursor
      <$> SendText.window_id_map (SendText.boss r1.1) !! 2 = Some 1
  ∧ SendText.render_unfocused_cursor
      <$> SendText.window_id_map (SendText.boss r2.1) !! 2 = Some 0
  ∧ SendText.sessions_map r2.1 !! str "s" = None
  ∧ SendText.outstanding (str "s") r2.1
    = {[ 1 := SendText.mkTimer (str "s") (Qc_of_Z 15) false ]}
  ∧ size (SendText.outstanding (str "s") r2.1) = 1%nat.
Proof. vm_compute. repeat split. Qed.

(** C5 at a tab predicate that matches no tab. *)
Lemma no_tab_match_raises_witness :
  @SendText.response_from_kitty Demo.lib None
    (SendText.Payload [] (str "text:hi") (str "title:none") false false None)
    Demo.st0
  = (Demo.st0,
     inl (SendText.MatchError (str "title:none") (str "tabs"))).
Proof.
  apply (@no_tab_match_raises Demo.lib None
           (SendText.Payload [] (str "text:hi") (str "title:none") false false
              None) Demo.st0); [reflexivity|discriminate|reflexivity].
Defined.

(** C7 at a [start] control sent to all windows. *)
Lemma session_control_no_write_witness :
  SendText.child_writes
    (@SendText.response_from_kitty Demo.lib None
       (Demo.to_all false (str "session:start") (Some (str "a"))) Demo.st0).1
  = [].
Proof.
  apply (@session_control_no_write Demo.lib None
           (Demo.to_all false (str "session:start") (Some (str "a")))
           Demo.st0).
  left. reflexivity.
Defined.

(** C8 at the empty control value, sent to all windows. *)
Lemma session_garbage_unbound_witness :
  (@SendText.response_from_kitty Demo.lib None
     (Demo.to_all false (str "session:") None) Demo.st0).2
  = inl (SendText.UnboundLocalError (str "data")).
Proof.
  apply (@session_garbage_unbound Demo.lib None
           (Demo.to_all false (str "session:") None) Demo.st0 []
           [Some 1; Some 2; Some 3]);
    [reflexivity|discriminate|discriminate|reflexivity|discriminate].
Defined.

(** The example of the spec: with the session started on the windows, the
    expiry of its timer purges the session and clears every flag. *)
Example expiry_purges :
  let st := SendText.fire_timer 1 Demo.st_live in
  SendText.sessions_map st = ∅
  ∧ SendText.active (SendText.timers st) = ∅
  ∧ (λ w, SendText.render_unfocused_cursor <$>
            SendText.window_id_map (SendText.boss st) !! w) <$> [1; 2; 3]
    = [Some 0; Some 0; Some 0].
Proof. vm_compute. repeat split. Qed.

(** * Further properties *)

(** ** The client: sources, blocks and fields *)

Lemma index_None c s : SendText.index c s = None → c ∉ s.
Proof.
  induction s as [|a s IH]; simpl; [intros _; apply not_elem_of_nil|].
  destruct (N.eqb_spec a c) as [|Hne]; [done|].
  destruct (SendText.index c s); [done|]. intros _.
  apply not_elem_of_cons. split; [congruence|by apply IH].
Qed.

Lemma index_Some c s i : SendText.index c s = Some i → c ∉ take i s.
Proof.
  revert i. induction s as [|a s IH]; intros i; simpl; [done|].
  destruct (N.eqb_spec a c) as [|Hne].
  - intros [= <-]. apply not_elem_of_nil.
  - destruct (SendText.index c s) as [j|]; [|done]. intros [= <-]. simpl.
    apply not_elem_of_cons. split; [congruence|by apply IH].
Qed.

Section ClientMore.

Context `{SendText.PyLib}.
Import SendText.

(** The loop that reads a file object in blocks stops when it has fuel for
    every octet, and it yields the successive blocks. *)
Lemma read_loop_spec (limit : nat) (fuel : nat) :
  (0 < limit)%nat →
  ∀ (f : bytes) (ret0 ret : payload),
    (length f < fuel)%nat →
    ret = ret0 ∨ (∃ d, ret = set_data d ret0) →
    ∃ (bs : list bytes) (ret' : payload),
      read_loop limit fuel f ret
      = ((λ b, set_data (str "base64:" ++ standard_b64encode b) ret0) <$> bs,
         ret', Returned)
      ∧ (ret' = ret0 ∨ ∃ d, ret' = set_data d ret0)
      ∧ Forall (λ b, (0 < length b ≤ limit)%nat) bs
      ∧ concat bs = f.
Proof.
  intros Hl. induction fuel as [|fuel IH]; intros f ret0 ret Hf Hret; [lia|].
  cbn [read_loop]. destruct (take limit f) as [|a data] eqn:Htake.
  - exists [], ret. split; [done|]. split; [done|]. split; [constructor|].
    destruct f as [|x f]; [done|]. destruct limit; [lia|done].
  - rewrite <- Htake.
    assert (Hlen : (length (drop limit f) < fuel)%nat).
    { rewrite length_drop. destruct f; [by rewrite take_nil in Htake|].
      simpl in *. lia. }
    destruct (IH (drop limit f) ret0
                (set_data (str "base64:" ++ standard_b64encode (take limit f)) ret)
                Hlen) as (bs & ret' & Heq & Hret' & Hall & Hcat).
    { right. destruct Hret as [->|[d' ->]]; eauto. }
    exists (take limit f :: bs), ret'. rewrite Heq. unfold yield_then.
    assert (Hsd : set_data (str "base64:" ++ standard_b64encode (take limit f)) ret
                  = set_data (str "base64:" ++ standard_b64encode (take limit f))
                      ret0).
    { destruct Hret as [->|[d' ->]]; reflexivity. }
    split; [by rewrite Hsd|]. split; [done|]. split.
    + constructor; [|done]. rewrite length_take. split; [|lia].
      rewrite <- length_take. rewrite Htake. simpl. lia.
    + simpl. rewrite Hcat. apply take_drop.
Qed.

(** X1: with a piped stdin, a readable file and a literal text, the payloads
    come in the order of the sources, each source sent to its end before the
    next begins: the blocks of stdin and then of the file, tagged [base64],
    then the slices of the text, tagged [text].  Every block and slice has
    between 1 and 1024 units, the blocks of each source concatenate to what
    was read, and every payload carries the caller's options unchanged. *)
Theorem sources_in_order (env : client_env) (opts : CLIOptions)
    (args : list pystr) (file : bytes) (data : pystr) :
  o_stdin opts = true →
  isatty env = false →
  o_from_file opts ≠ [] →
  open_rb env (o_from_file opts) = Some file →
  utf8_decode (parse_send_text_bytes (join (str " ") args)) = Some data →
  ∃ (bs1 bs2 : list bytes) (cs : list pystr),
    message_to_kitty env opts args
    = ((λ d, Payload (o_match opts) d (o_match_tab opts) (o_all opts)
                     (o_exclude_active opts) None)
         <$> (((λ b, str "base64:" ++ standard_b64encode b) <$> bs1)
              ++ ((λ b, str "base64:" ++ standard_b64encode b) <$> bs2)
              ++ ((λ c, str "text:" ++ c) <$> cs)),
       Returned)
    ∧ concat bs1 = stdin_buffer env
    ∧ concat bs2 = file
    ∧ concat cs = data
    ∧ Forall (λ b, (0 < length b ≤ 1024)%nat) (bs1 ++ bs2 ++ cs).
Proof.
  intros Hstdin Htty Hfile Hopen Hdec.
  unfold message_to_kitty, chain. rewrite Hstdin.
  rewrite bool_decide_eq_true_2 by done.
  set (ret := Payload _ _ _ _ _ _).
  unfold chain2, pipe, file_pipe, chunks. rewrite Htty, Hopen, Hdec.
  destruct (read_loop_spec 1024 (S (length (stdin_buffer env))) ltac:(lia)
              (stdin_buffer env) ret ret)
    as (bs1 & ret1 & -> & Hret1 & Hall1 & Hcat1); [lia|by left|].
  destruct (read_loop_spec 1024 (S (length file)) ltac:(lia) file ret ret1)
    as (bs2 & ret2 & -> & Hret2 & Hall2 & Hcat2); [lia|done|].
  destruct (chunks_loop_spec 1024 (S (length data)) ltac:(lia) data ret ret2)
    as (cs & ret3 & -> & Hall3 & Hcat3 & _); [lia|done|].
  exists bs1, bs2, cs. split.
  { rewrite !fmap_app, <- !list_fmap_compose. reflexivity. }
  repeat split; try done. by rewrite !Forall_app.
Qed.

(** X2: when the file cannot be opened, the run ends there: the literal
    text that follows on the command line is never sent.  What was read from
    stdin before has been sent already. *)
Theorem unreadable_file_aborts (env : client_env) (opts : CLIOptions)
    (args : list pystr) :
  o_from_file opts ≠ [] →
  open_rb env (o_from_file opts) = None →
  let ret := Payload (o_match opts) [] (o_match_tab opts) (o_all opts)
                     (o_exclude_active opts) None in
  let before := if o_stdin opts then pipe 1024 env ret else skip ret in
  message_to_kitty env opts args
  = (before.1.1,
     match before.2 with
     | Returned => Raised (OSError (o_from_file opts))
     | o => o
     end).
Proof.
  intros Hfile Hopen. cbn zeta. unfold message_to_kitty, chain.
  rewrite bool_decide_eq_true_2 by done. unfold chain2 at 1.
  set (ret := Payload _ _ _ _ _ _).
  assert (Hrest : ∀ ret1,
            chain2 (file_pipe 1024 env (o_from_file opts))
              (chunks 1024 (join (str " ") args)) ret1
            = ([], ret1, Raised (OSError (o_from_file opts)))).
  { intros ret1. unfold chain2, file_pipe. by rewrite Hopen. }
  destruct (o_stdin opts).
  - destruct (pipe 1024 env ret) as [[ys1 ret1] o1].
    destruct o1; try done. by rewrite Hrest, app_nil_r.
  - unfold skip. by rewrite Hrest.
Qed.

(** X3: what is read from a terminal is sent as text up to the first
    end-of-transmission character: no payload read from the terminal ever
    carries the character [0x04]. *)
Theorem tty_never_sends_eot (limit : nat) (env : client_env) (ret : payload) :
  isatty env = true →
  Forall (λ p, ∃ t, p_data p = str "text:" ++ t ∧ 4 ∉ t)
         (pipe limit env ret).1.1.
Proof.
  intros Htty. unfold pipe. rewrite Htty.
  generalize (set_exclude_active true ret) as r. generalize (tty env) as script.
  induction script as [|[|data] script IH]; intros r; try by constructor.
  cbn [tty_loop]. destruct data as [|b data]; [by constructor|].
  destruct (utf8_decode (b :: data)) as [decoded|]; [|by constructor].
  destruct (index 4 decoded) as [i|] eqn:Hi; unfold yield_then.
  - repeat constructor. eexists. split; [reflexivity|]. by apply index_Some.
  - specialize (IH (set_data (str "text:" ++ decoded) r)).
    destruct (tty_loop script _) as [[ys ret'] o]. constructor; [|done].
    eexists. split; [reflexivity|]. by apply index_None.
Qed.

(** *** Termination *)

Lemma tty_loop_stops script ret :
  (tty_loop script ret).2 = Returned
  ∨ (tty_loop script ret).2 = Raised UnicodeDecodeError.
Proof.
  revert ret. induction script as [|[|data] script IH]; intros ret;
    try by left.
  cbn [tty_loop]. destruct data as [|b data]; [by left|].
  destruct (utf8_decode (b :: data)) as [decoded|]; [|by right].
  destruct (index 4 decoded) as [i|]; [by left|].
  specialize (IH (set_data (str "text:" ++ decoded) ret)). unfold yield_then.
  by destruct (tty_loop script _) as [[ys ret'] o].
Qed.

Lemma chain2_outcome (g1 g2 : gen) ret :
  (chain2 g1 g2 ret).2
  = match (g1 ret).2 with
    | Returned => (g2 (g1 ret).1.2).2
    | o => o
    end.
Proof.
  unfold chain2. destruct (g1 ret) as [[ys1 ret1] o1].
  destruct o1; try done. cbn [fst snd]. by destruct (g2 ret1) as [[ys2 ret2] o2].
Qed.

Lemma read_loop_stops f r : (read_loop 1024 (S (length f)) f r).2 = Returned.
Proof.
  destruct (read_loop_spec 1024 (S (length f)) ltac:(lia) f r r)
    as (bs & r' & -> & _); [lia|by left|done].
Qed.

Lemma chunks_stops text r : stops (chunks 1024 text r).2.
Proof.
  unfold chunks. destruct (utf8_decode _) as [data|]; [|right; eauto].
  destruct (chunks_loop_spec 1024 (S (length data)) ltac:(lia) data r r)
    as (cs & r' & -> & _); [lia|by left|by left].
Qed.

(** X4: the generator of [message_to_kitty] always comes to an end: its
    loops over stdin, over the file and over the text run out of input (each
    round consumes up to 1024 units, and at least one), so the run either
    returns or raises; it never goes on for ever. *)
Theorem message_to_kitty_stops (env : client_env) (opts : CLIOptions)
    (args : list pystr) :
  (message_to_kitty env opts args).2 = Returned
  ∨ ∃ e, (message_to_kitty env opts args).2 = Raised e.
Proof.
  change (stops (message_to_kitty env opts args).2).
  set (ret := Payload (o_match opts) [] (o_match_tab opts) (o_all opts)
                      (o_exclude_active opts) None).
  assert (Hm : (message_to_kitty env opts args).2
               = (chain 1024 env opts args ret).2).
  { unfold message_to_kitty. fold ret.
    by destruct (chain 1024 env opts args ret) as [[? ?] ?]. }
  rewrite Hm. unfold chain.
  assert (Hfile : ∀ r,
            stops (chain2 (if bool_decide (o_from_file opts ≠ []) then
                             file_pipe 1024 env (o_from_file opts) else skip)
                          (chunks 1024 (join (str " ") args)) r).2).
  { intros r. rewrite chain2_outcome. case_bool_decide.
    - unfold file_pipe. destruct (open_rb env _) as [f|]; [|right; eauto].
      rewrite read_loop_stops. apply chunks_stops.
    - apply chunks_stops. }
  rewrite chain2_outcome. destruct (o_stdin opts).
  - unfold pipe. destruct (isatty env).
    + destruct (tty_loop_stops (tty env) (set_exclude_active true ret))
        as [-> | ->]; [apply Hfile|right; eauto].
    + rewrite read_loop_stops. apply Hfile.
  - apply Hfile.
Qed.

(** *** The fields the generators leave alone *)

Lemma yield_then_agrees r0 ret r :
  set_data [] ret = set_data [] r0 →
  agrees r0 r → agrees r0 (yield_then ret r).
Proof.
  destruct r as [[ys ret'] o]. intros Hret [Hys Hr]. split; simpl; auto.
Qed.

Lemma tty_loop_agrees r0 script ret :
  set_data [] ret = set_data [] r0 → agrees r0 (tty_loop script ret).
Proof.
  revert ret. induction script as [|[|data] script IH]; intros ret Hret;
    try (split; simpl; auto; fail).
  cbn [tty_loop]. destruct data as [|b data]; [split; simpl; auto|].
  destruct (utf8_decode (b :: data)) as [decoded|]; [|split; simpl; auto].
  destruct (index 4 decoded) as [i|].
  - apply yield_then_agrees; [done|]. split; simpl; auto.
  - apply yield_then_agrees; [done|]. by apply IH.
Qed.

Lemma read_loop_agrees r0 limit fuel f ret :
  set_data [] ret = set_data [] r0 → agrees r0 (read_loop limit fuel f ret).
Proof.
  revert f ret. induction fuel as [|fuel IH]; intros f ret Hret;
    [split; simpl; auto|].
  cbn [read_loop]. destruct (take limit f) as [|b data]; [split; simpl; auto|].
  apply yield_then_agrees; [done|]. by apply IH.
Qed.

Lemma chunks_loop_agrees r0 limit fuel data ret :
  set_data [] ret = set_data [] r0 → agrees r0 (chunks_loop limit fuel data ret).
Proof.
  revert data ret. induction fuel as [|fuel IH]; intros data ret Hret;
    [split; simpl; auto|].
  destruct data as [|a data]; [split; simpl; auto|].
  rewrite chunks_loop_cons. apply yield_then_agrees; [done|]. by apply IH.
Qed.

Lemma chain2_agrees r0 (g1 g2 : gen) ret :
  agrees r0 (g1 ret) →
  (∀ ret', set_data [] ret' = set_data [] r0 → agrees r0 (g2 ret')) →
  agrees r0 (chain2 g1 g2 ret).
Proof.
  unfold chain2. destruct (g1 ret) as [[ys1 ret1] o1]. intros [H1 Hr1] H2.
  destruct o1; try (split; simpl; auto; fail).
  specialize (H2 ret1 Hr1). destruct (g2 ret1) as [[ys2 ret2] o2].
  destruct H2 as [H2 Hr2]. split; simpl in *; [|done].
  by apply Forall_app.
Qed.

(** X5: whatever the sources, every payload carries the caller's [match],
    [match_tab] and [all], and no session id; the generators change nothing
    but [data], except that [exclude_active] is also set when stdin is the
    selected source and is a terminal, and is the caller's otherwise. *)
Theorem payload_fields (env : client_env) (opts : CLIOptions)
    (args : list pystr) :
  Forall (λ p, set_data [] p
               = Payload (o_match opts) [] (o_match_tab opts) (o_all opts)
                   (o_exclude_active opts || o_stdin opts && isatty env) None)
         (message_to_kitty env opts args).1.
Proof.
  unfold message_to_kitty.
  set (r0 := Payload (o_match opts) [] (o_match_tab opts) (o_all opts)
                     (o_exclude_active opts || o_stdin opts && isatty env) None).
  set (ret := Payload (o_match opts) [] (o_match_tab opts) (o_all opts)
                      (o_exclude_active opts) None).
  assert (Hrest : ∀ ret', set_data [] ret' = set_data [] r0 →
            agrees r0 (chain2 (if bool_decide (o_from_file opts ≠ []) then
                                 file_pipe 1024 env (o_from_file opts)
                               else skip)
                              (chunks 1024 (join (str " ") args)) ret')).
  { intros ret1 Hret1. apply chain2_agrees.
    - case_bool_decide; [|split; simpl; auto].
      unfold file_pipe. destruct (open_rb env _); [|split; simpl; auto].
      by apply read_loop_agrees.
    - intros ret2 Hret2. unfold chunks.
      destruct (utf8_decode _); [|split; simpl; auto].
      by apply chunks_loop_agrees. }
  assert (Hk : agrees r0 (chain 1024 env opts args ret)).
  { unfold chain. apply chain2_agrees; [|done].
    subst r0 ret. destruct (o_stdin opts); cbn [andb].
    - unfold pipe. destruct (isatty env).
      + apply tty_loop_agrees. cbn. by rewrite orb_true_r.
      + apply read_loop_agrees. cbn. by rewrite orb_false_r.
    - split; cbn; [constructor|]. by rewrite orb_false_r. }
  destruct (chain 1024 env opts args ret) as [[ys ret'] o].
  exact (proj1 Hk).
Qed.

End ClientMore.

(** ** The host: what a request touches *)

Section HostMore.

Context `{SendText.PyLib}.
Import SendText.

Lemma flags_only_refl b : flags_only b b.
Proof. by split. Qed.

Lemma flags_only_trans b1 b2 b3 :
  flags_only b1 b2 → flags_only b2 b3 → flags_only b1 b3.
Proof.
  intros [Hr1 Ha1] [Hr2 Ha2]. split; [congruence|].
  intros w. by rewrite Ha2, Ha1.
Qed.

Lemma set_cursor_flags_only v w st :
  flags_only (boss st) (boss (set_render_unfocused_cursor v w st)).
Proof.
  split; [done|]. intros w'.
  cbn [set_render_unfocused_cursor with_boss boss with_windows window_id_map].
  destruct (decide (w = w')) as [->|Hne].
  - rewrite lookup_alter_eq. by destruct (window_id_map (boss st) !! w').
  - by rewrite lookup_alter_ne.
Qed.

Lemma foldl_flags_only {A} (f : state → A → state) (l : list A) st :
  (∀ st x, flags_only (boss st) (boss (f st x))) →
  flags_only (boss st) (boss (foldl f st l)).
Proof.
  intros Hf. revert st. induction l as [|x l IH]; intros st;
    [apply flags_only_refl|].
  cbn [foldl]. eapply flags_only_trans; [apply Hf|apply IH].
Qed.

Lemma create_boss sid st : boss (create_or_update_session sid st) = boss st.
Proof. by destruct (create_fields sid st) as (_ & -> & _). Qed.

Lemma clear_flags_only sid st :
  flags_only (boss st) (boss (clear_unfocused_cursors sid st)).
Proof.
  unfold clear_unfocused_cursors.
  destruct (sessions_map st !! sid) as [s|]; [|apply flags_only_refl].
  generalize (elements (window_ids s)) as l. intros l.
  induction l as [|w l IH]; [apply flags_only_refl|].
  cbn [foldr]. eapply flags_only_trans; [apply IH|apply set_cursor_flags_only].
Qed.

Lemma deliver_flags_only sid data ws st :
  flags_only (boss st) (boss (deliver sid data ws st).1).
Proof.
  revert st. induction ws as [|w ws IH]; intros st; [apply flags_only_refl|].
  cbn [deliver].
  set (st' := if bool_decide (sid ≠ []) then _ else st).
  assert (Hst' : flags_only (boss st) (boss st')).
  { subst st'. case_bool_decide; [|apply flags_only_refl].
    apply (set_cursor_flags_only 1 w st). }
  destruct data as [[b|key]|]; [| |done].
  - eapply flags_only_trans; [exact Hst'|]. apply (IH (write_to_child w b st')).
  - destruct (encoded_key w key) as [|c kdata].
    + eapply flags_only_trans; [exact Hst'|apply IH].
    + eapply flags_only_trans; [exact Hst'|].
      apply (IH (write_to_child w (c :: kdata) st')).
Qed.

(** The resolution looks at nothing but the registry. *)
Lemma resolve_registry b b' p :
  registry b' = registry b → resolve_windows b' p = resolve_windows b p.
Proof.
  unfold registry, resolve_windows. intros [= -> -> -> ->]. done.
Qed.

Lemma actual_registry b b' e windows :
  registry b' = registry b →
  actual_windows b' e windows = actual_windows b e windows.
Proof. unfold registry, actual_windows. intros [= _ -> _ _]. done. Qed.

(** How the delivery loop can end. *)
Lemma deliver_result sid data ws st :
  (deliver sid data ws st).2 = inr ()
  ∨ (deliver sid data ws st).2 = inl (UnboundLocalError (str "data"))
    ∧ data = None ∧ ws ≠ [].
Proof.
  revert st. induction ws as [|w ws IH]; intros st; [by left|].
  cbn [deliver].
  set (st' := if bool_decide (sid ≠ []) then _ else st).
  destruct data as [[b|key]|]; [| |by right].
  - destruct (IH (write_to_child w b st')) as [?|(? & ? & ?)]; [by left|done].
  - destruct (encoded_key w key) as [|c kdata].
    + destruct (IH st') as [?|(? & ? & ?)]; [by left|done].
    + destruct (IH (write_to_child w (c :: kdata) st')) as [?|(? & ? & ?)];
        [by left|done].
Qed.

(** *** Failures *)

(** X6: a request that fails in the resolution of its windows or in the
    decoding of its data (with [MatchError], [TypeError], [ValueError] or an
    error of base64 or of the text codec) has done nothing: the state is what
    it was.  Only the [UnboundLocalError] of a malformed session control is
    raised later. *)
Theorem failed_request_no_effect (window : option N) (p : payload)
    (st : state) (e : exn) :
  (response_from_kitty window p st).2 = inl e →
  (∀ name, e ≠ UnboundLocalError name) →
  (response_from_kitty window p st).1 = st.
Proof.
  unfold response_from_kitty.
  destruct (resolve_windows (boss st) p) as [e'|windows]; [done|].
  destruct (decode_data (p_data p)) as [e'|[data session]]; [done|].
  case_decide; [done|]. case_decide; [done|].
  intros He Hne. exfalso.
  destruct (deliver_result (default [] (p_session_id p)) data
              (actual_windows (boss st) (p_exclude_active p) windows)
              (if bool_decide (default [] (p_session_id p) ≠ []) then
                 schedule (default [] (p_session_id p))
                   (create_or_update_session (default [] (p_session_id p)) st)
               else st)) as [Hr|(Hr & _)];
    rewrite Hr in He; [done|].
  injection He as <-. by eapply Hne.
Qed.

(** X7: the failure of a malformed session control comes after the session
    bookkeeping.  With a session id, the request has by then brought the
    session to life or refreshed it: the session holds the first resolved
    window as a member and a newly scheduled timer, and the flag of that
    window is set. *)
Theorem failed_control_leaves_session (window : option N) (p : payload)
    (st : state) (q : pystr) (windows : list (option N)) (w : N)
    (ws : list N) :
  p_data p = str "session:" ++ q →
  q ≠ str "start" →
  q ≠ str "end" →
  default [] (p_session_id p) ≠ [] →
  resolve_windows (boss st) p = inr windows →
  actual_windows (boss st) (p_exclude_active p) windows = w :: ws →
  let sid := default [] (p_session_id p) in
  let s := default (new_Session sid) (sessions_map st !! sid) in
  let tid := N.succ (last_timer_id (timers st)) in
  let st' := (response_from_kitty window p st).1 in
  (response_from_kitty window p st).2 = inl (UnboundLocalError (str "data"))
  ∧ sessions_map st'
    = <[sid := mkSession (sess_id s) (window_ids s ∪ {[w]}) tid]>
        (sessions_map st)
  ∧ active (timers st') !! tid = Some (mkTimer sid (blink_time st) false)
  ∧ render_unfocused_cursor <$> window_id_map (boss st') !! w
    = (λ _, 1) <$> window_id_map (boss st) !! w
  ∧ child_writes st' = child_writes st.
Proof.
  intros Hdata Hstart Hend Hsid Hres Hws. cbn zeta.
  unfold response_from_kitty. rewrite Hres, Hdata, decode_session, Hws.
  rewrite decide_False by done. rewrite decide_False by done.
  rewrite bool_decide_eq_true_2 by done. cbn [deliver fst snd].
  rewrite bool_decide_eq_true_2 by done.
  set (sid := default [] (p_session_id p)) in *.
  destruct (create_fields sid st) as (Hcs & Hcb & Hca & Hcl & Hco & Hcw).
  cbn zeta in *.
  set (s := default (new_Session sid) (sessions_map st !! sid)) in *.
  set (A := create_or_update_session sid st) in *.
  split; [done|].
  cbn [add_window set_render_unfocused_cursor schedule add_timer with_sessions
         with_boss with_timers with_windows sessions_map boss timers active
         window_id_map child_writes].
  split.
  { rewrite Hcs, Hcl. by rewrite !alter_insert_eq. }
  split.
  { rewrite Hcl, lookup_insert_eq. by rewrite (blink_time_ext st A). }
  split; [|done].
  rewrite lookup_alter_eq, Hcb. by destruct (window_id_map (boss st) !! w).
Qed.

(** *** Data without a session *)

Lemma deliver_plain (d : data_value) (ws : list N) (st : state) :
  deliver [] (Some d) ws st
  = (mkState (sessions_map st) (boss st) (timers st)
       (cursor_stop_blinking_after st)
       (child_writes st ++ omap (write_for d) ws), inr ()).
Proof.
  revert st. induction ws as [|w ws IH]; intros st.
  - cbn [deliver omap list_omap]. rewrite app_nil_r. by destruct st.
  - cbn [deliver omap list_omap]. rewrite bool_decide_eq_false_2
      by (intros Hne; by apply Hne).
    destruct d as [b|k]; cbn [write_for].
    + rewrite IH. cbn [write_to_child sessions_map boss timers
                         cursor_stop_blinking_after child_writes].
      by rewrite <- app_assoc.
    + destruct (encoded_key w k) as [|c kdata] eqn:Hk; rewrite IH; [done|].
      cbn [write_to_child sessions_map boss timers
             cursor_stop_blinking_after child_writes].
      by rewrite <- app_assoc.
Qed.

Lemma plain_request (window : option N) (p : payload) (st : state)
    (d : data_value) (session : pystr) (windows : list (option N)) :
  decode_data (p_data p) = inr (Some d, session) →
  default [] (p_session_id p) = [] →
  resolve_windows (boss st) p = inr windows →
  response_from_kitty window p st
  = (mkState (sessions_map st) (boss st) (timers st)
       (cursor_stop_blinking_after st)
       (child_writes st
        ++ omap (write_for d)
             (actual_windows (boss st) (p_exclude_active p) windows)),
     inr ()).
Proof.
  intros Hdec Hsid Hres. unfold response_from_kitty.
  rewrite Hres, Hdec, Hsid, (decode_data_assigned _ _ _ Hdec).
  rewrite decide_False by discriminate. rewrite decide_False by discriminate.
  rewrite bool_decide_eq_false_2 by (intros Hne; by apply Hne).
  apply deliver_plain.
Qed.

(** X8: a payload that carries data and no session id is fire and forget:
    it is written to the resolved windows in their order (a key event to the
    windows that encode it to something) and nothing else changes, neither
    the sessions, nor the timers, nor any flag. *)
Theorem data_without_session (window : option N) (p : payload) (st : state)
    (d : data_value) (session : pystr) (windows : list (option N)) :
  decode_data (p_data p) = inr (Some d, session) →
  default [] (p_session_id p) = [] →
  resolve_windows (boss st) p = inr windows →
  response_from_kitty window p st
  = (mkState (sessions_map st) (boss st) (timers st)
       (cursor_stop_blinking_after st)
       (child_writes st
        ++ omap (write_for d)
             (actual_windows (boss st) (p_exclude_active p) windows)),
     inr ()).
Proof. apply plain_request. Qed.

(** X9: without [all] and without any predicate the one target is the
    active window; when there is none, or when [exclude_active] is set, the
    data goes nowhere: nothing is raised and the state is what it was. *)
Theorem nothing_to_deliver (window : option N) (p : payload) (st : state)
    (d : data_value) (session : pystr) :
  p_all p = false →
  p_match p = [] →
  p_match_tab p = [] →
  active_window (boss st) = None ∨ p_exclude_active p = true →
  default [] (p_session_id p) = [] →
  decode_data (p_data p) = inr (Some d, session) →
  response_from_kitty window p st = (st, inr ()).
Proof.
  intros Hall Hm Hmt Hnone Hsid Hdec. unfold response_from_kitty.
  unfold resolve_windows. rewrite Hall, Hm, Hmt.
  rewrite !bool_decide_eq_false_2 by (intros Hne; by apply Hne).
  rewrite Hdec, Hsid, (decode_data_assigned _ _ _ Hdec).
  rewrite decide_False by discriminate. rewrite decide_False by discriminate.
  assert (Hws : actual_windows (boss st) (p_exclude_active p)
                  [active_window (boss st)] = []).
  { unfold actual_windows. cbn [omap list_omap].
    destruct Hnone as [-> | ->]; [done|].
    destruct (active_window (boss st)) as [a|]; [|done]. cbn [negb orb].
    by rewrite bool_decide_eq_false_2 by (intros Hne; by apply Hne). }
  rewrite Hws, deliver_plain. cbn [omap list_omap].
  rewrite app_nil_r. by destruct st.
Qed.

(** X10: [all] overrides both predicates, and a tab predicate overrides the
    window predicate: with [all] set the request does the same whatever
    [match] and [match_tab] are (a tab predicate that matches nothing then
    raises nothing), and with a tab predicate it does the same whatever
    [match] is. *)
Theorem predicates_overridden (window : option N) (p : payload) (st : state) :
  (p_all p = true →
   ∀ m mt,
     response_from_kitty window
       (Payload m (p_data p) mt true (p_exclude_active p) (p_session_id p)) st
     = response_from_kitty window p st)
  ∧ (p_match_tab p ≠ [] →
     ∀ m,
       response_from_kitty window
         (Payload m (p_data p) (p_match_tab p) (p_all p) (p_exclude_active p)
                  (p_session_id p)) st
       = response_from_kitty window p st).
Proof.
  split.
  - intros Hall m mt. unfold response_from_kitty, resolve_windows.
    cbn [p_all p_match p_match_tab p_data p_exclude_active p_session_id].
    by rewrite Hall.
  - intros Hmt m. unfold response_from_kitty, resolve_windows.
    cbn [p_all p_match p_match_tab p_data p_exclude_active p_session_id].
    destruct (p_all p); [done|].
    by rewrite (bool_decide_eq_true_2 (p_match_tab p ≠ [])) by done.
Qed.

(** *** What a request does to the windows *)

Lemma flags_only_grows b b' : flags_only b b' → grows_only b b'.
Proof.
  intros [Hr Ha]. split; [done|]. intros w. exists []. rewrite Ha.
  destruct (window_id_map b !! w); [|done]. cbn. by rewrite app_nil_r.
Qed.

Lemma grows_then_flags b1 b2 b3 :
  grows_only b1 b2 → flags_only b2 b3 → grows_only b1 b3.
Proof.
  intros [Hr1 Ha1] [Hr2 Ha2]. split; [congruence|].
  intros w. destruct (Ha1 w) as [extra He]. exists extra. by rewrite Ha2.
Qed.

Lemma end_loop_flags_only sid ws st :
  flags_only (boss st)
    (boss (foldl (λ st w, discard_window sid w
                            (set_render_unfocused_cursor 0 w st)) st ws)).
Proof.
  apply foldl_flags_only. intros st' w. apply (set_cursor_flags_only 0 w st').
Qed.

Lemma start_loop_flags_only sid ws st :
  flags_only (boss st)
    (boss (foldl (λ st w, add_window sid w
                            (set_render_unfocused_cursor 1 w st)) st ws)).
Proof.
  apply foldl_flags_only. intros st' w. apply (set_cursor_flags_only 1 w st').
Qed.

(** A request other than a [start] control changes flags only. *)
Lemma request_flags_only (window : option N) (p : payload) (st : state) :
  (∀ data, decode_data (p_data p) ≠ inr (data, str "start")) →
  flags_only (boss st) (boss (response_from_kitty window p st).1).
Proof.
  intros Hns. unfold response_from_kitty.
  destruct (resolve_windows (boss st) p) as [e|windows];
    [apply flags_only_refl|].
  destruct (decode_data (p_data p)) as [e|[data session]] eqn:Hdec;
    [apply flags_only_refl|].
  case_decide.
  - cbn [fst]. eapply flags_only_trans; [|apply clear_flags_only].
    eapply flags_only_trans; [|apply end_loop_flags_only].
    rewrite create_boss. apply flags_only_refl.
  - case_decide as Hs; [subst session; by destruct (Hns data)|].
    eapply flags_only_trans; [|apply deliver_flags_only].
    case_bool_decide; [|apply flags_only_refl].
    cbn [schedule add_timer with_sessions with_timers boss].
    rewrite create_boss. apply flags_only_refl.
Qed.

Lemma request_grows_only (window : option N) (p : payload) (st : state) :
  grows_only (boss st) (boss (response_from_kitty window p st).1).
Proof.
  destruct (decode_data (p_data p)) as [e|[data session]] eqn:Hdec.
  { apply flags_only_grows, request_flags_only. intros d. congruence. }
  destruct (decide (session = str "start")) as [->|Hs].
  2:{ apply flags_only_grows, request_flags_only. intros d. congruence. }
  unfold response_from_kitty.
  destruct (resolve_windows (boss st) p) as [e|windows];
    [apply flags_only_grows, flags_only_refl|].
  rewrite Hdec. rewrite decide_False by discriminate.
  rewrite decide_True by done. cbn [fst].
  eapply grows_then_flags; [|apply start_loop_flags_only].
  cbn [schedule add_timer with_sessions with_timers boss].
  destruct window as [w0|];
    [|rewrite create_boss; apply flags_only_grows, flags_only_refl].
  cbn [with_boss boss]. rewrite create_boss. split; [done|]. intros w.
  cbn [with_windows window_id_map].
  destruct (decide (w0 = w)) as [->|Hne].
  - exists [default [] (p_session_id p)]. rewrite lookup_alter_eq.
    by destruct (window_id_map (boss st) !! w).
  - exists []. rewrite lookup_alter_ne by done.
    destruct (window_id_map (boss st) !! w); [|done]. cbn.
    by rewrite app_nil_r.
Qed.

(** X11: whatever the request and however it ends, the handler leaves the
    registry alone: the same windows exist, the same one is active, the
    predicates match the same; and a close action, once on the list of a
    window, is never taken off it. *)
Theorem request_keeps_windows (window : option N) (p : payload) (st : state) :
  registry (boss (response_from_kitty window p st).1) = registry (boss st)
  ∧ dom (window_id_map (boss (response_from_kitty window p st).1))
    = dom (window_id_map (boss st))
  ∧ ∀ w win,
      window_id_map (boss st) !! w = Some win →
      ∃ win',
        window_id_map (boss (response_from_kitty window p st).1) !! w
        = Some win'
        ∧ actions_on_close win `prefix_of` actions_on_close win'.
Proof.
  destruct (request_grows_only window p st) as [Hr Ha].
  split; [done|]. split.
  - apply set_eq. intros w. rewrite !elem_of_dom.
    destruct (Ha w) as [extra He].
    destruct (window_id_map (boss (response_from_kitty window p st).1) !! w),
             (window_id_map (boss st) !! w); try done; split; eauto.
  - intros w win Hw. destruct (Ha w) as [extra He]. rewrite Hw in He.
    destruct (window_id_map (boss (response_from_kitty window p st).1) !! w)
      as [win'|]; [|done].
    exists win'. split; [done|]. injection He as ->. by exists extra.
Qed.

(** X12: a [start] control sent from a window appends the close action of
    the session to the list of that window, whether or not the list has one
    for the session already; an [end] control for the session leaves it
    there. *)
Theorem start_registers_close_action (w0 : N) (window2 : option N)
    (p1 p2 : payload) (st : state) (windows1 : list (option N))
    (win : Window) :
  p_data p1 = str "session:start" →
  p_data p2 = str "session:end" →
  resolve_windows (boss st) p1 = inr windows1 →
  window_id_map (boss st) !! w0 = Some win →
  let sid := default [] (p_session_id p1) in
  let st1 := (response_from_kitty (Some w0) p1 st).1 in
  let st2 := (response_from_kitty window2 p2 st1).1 in
  actions_on_close <$> window_id_map (boss st1) !! w0
  = Some (actions_on_close win ++ [sid])
  ∧ actions_on_close <$> window_id_map (boss st2) !! w0
    = Some (actions_on_close win ++ [sid]).
Proof.
  intros Hd1 Hd2 Hr1 Hw0. cbn zeta.
  assert (H1 : actions_on_close <$>
                 window_id_map (boss (response_from_kitty (Some w0) p1 st).1)
                 !! w0
               = Some (actions_on_close win ++ [default [] (p_session_id p1)])).
  { unfold response_from_kitty. rewrite Hr1, Hd1.
    change (str "session:start") with (str "session:" ++ str "start").
    rewrite decode_session. rewrite decide_False by discriminate.
    rewrite decide_True by done. cbn [fst].
    rewrite (proj2 (start_loop_flags_only _ _ _)).
    cbn [schedule add_timer with_sessions with_timers with_boss boss
           with_windows window_id_map].
    by rewrite lookup_alter_eq, create_boss, Hw0. }
  split; [done|]. rewrite <- H1.
  apply (request_flags_only window2 p2). intros data.
  rewrite (decode_end _ Hd2). discriminate.
Qed.

(** X13: [clear_unfocused_cursors] forgets the session, clears the flag of
    every member window the boss still knows and of no other window, and
    touches nothing else; it does not cancel the timer of the session.  When
    the session is not there it does nothing, so a second call is a
    no-op. *)
Theorem purge_effect (sid : pystr) (st : state) :
  let st' := clear_unfocused_cursors sid st in
  sessions_map st' = delete sid (sessions_map st)
  ∧ timers st' = timers st
  ∧ child_writes st' = child_writes st
  ∧ flags_only (boss st) (boss st')
  ∧ (∀ w, render_unfocused_cursor <$> window_id_map (boss st') !! w
          = if decide (w ∈ default ∅ (window_ids <$> sessions_map st !! sid))
            then (λ _, 0) <$> window_id_map (boss st) !! w
            else render_unfocused_cursor <$> window_id_map (boss st) !! w)
  ∧ clear_unfocused_cursors sid st' = st'.
Proof.
  cbn zeta. destruct (sessions_map st !! sid) as [s|] eqn:Hs.
  - destruct (clear_fields sid st s Hs) as (H1 & H2 & H3 & H4). cbn zeta in *.
    split; [done|]. split; [done|]. split; [done|].
    split; [apply clear_flags_only|]. split.
    + intros w. rewrite H4. cbn [fmap option_fmap option_map default
                                   from_option id].
      case_decide; [|done]. by destruct (window_id_map (boss st) !! w).
    + unfold clear_unfocused_cursors at 1. by rewrite H1, lookup_delete_eq.
  - unfold clear_unfocused_cursors. rewrite Hs.
    split; [by rewrite delete_id|]. split; [done|]. split; [done|].
    split; [apply flags_only_refl|]. split; [|by rewrite Hs].
    intros w. cbn. rewrite decide_False; [done|]. apply not_elem_of_empty.
Qed.

Lemma session_control_no_write_aux (window : option N) (p : payload)
    (st : state) :
  p_data p = str "session:start" →
  child_writes (response_from_kitty window p st).1 = child_writes st.
Proof.
  intros Hd.
  destruct (resolve_windows (boss st) p) as [e|windows] eqn:Hres;
    [by unfold response_from_kitty; rewrite Hres|].
  by destruct (start_fields window p st windows None (decode_start _ Hd) Hres)
    as (_ & _ & _ & _ & -> & _).
Qed.

(** *** How the controls compose *)

(** X14: [end] is idempotent: a second [end] control for the same session
    and the same windows raises nothing, leaves the sessions and the timers
    as the first one left them, changes no flag and writes nothing. *)
Theorem end_twice (window1 window2 : option N) (p : payload) (st : state)
    (windows : list (option N)) :
  p_data p = str "session:end" →
  resolve_windows (boss st) p = inr windows →
  let st1 := (response_from_kitty window1 p st).1 in
  let st2 := (response_from_kitty window2 p st1).1 in
  (response_from_kitty window2 p st1).2 = inr ()
  ∧ sessions_map st2 = sessions_map st1
  ∧ timers st2 = timers st1
  ∧ child_writes st2 = child_writes st1
  ∧ ∀ w, render_unfocused_cursor <$> window_id_map (boss st2) !! w
         = render_unfocused_cursor <$> window_id_map (boss st1) !! w.
Proof.
  intros Hd Hres. cbn zeta.
  destruct (end_fields window1 p st windows None (decode_end _ Hd) Hres)
    as (_ & Hs1 & _ & _ & _ & Hm1).
  cbn zeta in *.
  assert (Hreg : registry (boss (response_from_kitty window1 p st).1)
                 = registry (boss st)).
  { apply (request_flags_only window1 p). intros data.
    rewrite (decode_end _ Hd). discriminate. }
  set (st1 := (response_from_kitty window1 p st).1) in *.
  assert (Hres1 : resolve_windows (boss st1) p = inr windows)
    by by rewrite (resolve_registry _ _ _ Hreg).
  destruct (end_fields window2 p st1 windows None (decode_end _ Hd) Hres1)
    as (Ho2 & Hs2 & Ha2 & Hl2 & Hw2 & Hm2).
  cbn zeta in *. rewrite (actual_registry _ _ _ _ Hreg) in Hm2.
  set (sid := default [] (p_session_id p)) in *.
  set (ws := actual_windows (boss st) (p_exclude_active p) windows) in *.
  assert (Hnone : sessions_map st1 !! sid = None)
    by by rewrite Hs1, lookup_delete_eq.
  rewrite Hnone in Ha2, Hm2. cbn in Ha2.
  split; [done|]. split; [by rewrite Hs2, delete_id|]. split.
  { destruct (timers (response_from_kitty window2 p st1).1), (timers st1).
    cbn in *. congruence. }
  split; [done|]. intros w. rewrite Hm2.
  cbn [default from_option id new_Session window_ids].
  case_decide as Hin; [|done]. destruct Hin as [Hin|Hin];
    [|by apply not_elem_of_empty in Hin].
  specialize (Hm1 w). rewrite decide_True in Hm1 by by left.
  destruct (window_id_map (boss st1) !! w) as [win1|]; [|done].
  destruct (window_id_map (boss st) !! w); [|done]. cbn in *. congruence.
Qed.

Lemma deliver_marks (sid : pystr) (d : data_value) (ws : list N) (st : state) :
  sid ≠ [] →
  let marked := foldl (λ st w, add_window sid w
                                 (set_render_unfocused_cursor 1 w st)) st ws in
  (deliver sid (Some d) ws st).1
  = mkState (sessions_map marked) (boss marked) (timers marked)
      (cursor_stop_blinking_after marked)
      (child_writes st ++ omap (write_for d) ws).
Proof.
  intros Hsid. cbn zeta. revert st. induction ws as [|w ws IH]; intros st.
  - cbn [deliver foldl omap list_omap fst]. rewrite app_nil_r. by destruct st.
  - cbn [deliver foldl omap list_omap]. rewrite bool_decide_eq_true_2 by done.
    set (st' := add_window sid w (set_render_unfocused_cursor 1 w st)).
    assert (Hind : ∀ l,
      let a := foldl (λ st w, add_window sid w
                                (set_render_unfocused_cursor 1 w st))
                 (write_to_child w l st') ws in
      let b := foldl (λ st w, add_window sid w
                                (set_render_unfocused_cursor 1 w st)) st' ws in
      sessions_map a = sessions_map b ∧ boss a = boss b
      ∧ timers a = timers b
      ∧ cursor_stop_blinking_after a = cursor_stop_blinking_after b).
    { intros l. cbn zeta. unfold add_window.
      destruct (session_loop_fields
                  (λ s w, mkSession (sess_id s) (window_ids s ∪ {[w]})
                                    (timer_id s))
                  1 sid ws (write_to_child w l st')) as (-> & -> & -> & -> & _).
      destruct (session_loop_fields
                  (λ s w, mkSession (sess_id s) (window_ids s ∪ {[w]})
                                    (timer_id s))
                  1 sid ws st') as (-> & -> & -> & -> & _).
      done. }
    destruct d as [b|k]; cbn [write_for].
    + rewrite IH. destruct (Hind b) as (-> & -> & -> & ->).
      cbn [write_to_child child_writes]. by rewrite <- app_assoc.
    + destruct (encoded_key w k) as [|c kdata] eqn:Hk; rewrite IH; [done|].
      destruct (Hind (c :: kdata)) as (-> & -> & -> & ->).
      cbn [write_to_child child_writes]. by rewrite <- app_assoc.
Qed.

(** X15: a payload that carries data and a session id does to the sessions,
    the timers and the windows exactly what a [start] control for that
    session and those windows does (sent from outside any window), and
    writes the data to the resolved windows besides. *)
Theorem refresh_is_start_and_delivery (window : option N) (p : payload)
    (st : state) (d : data_value) (session : pystr)
    (windows : list (option N)) :
  decode_data (p_data p) = inr (Some d, session) →
  default [] (p_session_id p) ≠ [] →
  resolve_windows (boss st) p = inr windows →
  let refreshed := (response_from_kitty window p st).1 in
  let started :=
    (response_from_kitty None (set_data (str "session:start") p) st).1 in
  (response_from_kitty window p st).2 = inr ()
  ∧ sessions_map refreshed = sessions_map started
  ∧ boss refreshed = boss started
  ∧ timers refreshed = timers started
  ∧ child_writes started = child_writes st
  ∧ child_writes refreshed
    = child_writes st
      ++ omap (write_for d)
           (actual_windows (boss st) (p_exclude_active p) windows).
Proof.
  intros Hdec Hsid Hres. cbn zeta.
  pose proof (session_control_no_write_aux None
                (set_data (str "session:start") p) st eq_refl) as Hnw.
  unfold response_from_kitty in *.
  assert (Hres' : resolve_windows (boss st) (set_data (str "session:start") p)
                  = inr windows) by exact Hres.
  rewrite Hres' in *. cbn [set_data p_data p_exclude_active p_session_id] in *.
  change (str "session:start") with (str "session:" ++ str "start") in *.
  rewrite decode_session in *. rewrite Hres, Hdec.
  rewrite (decode_data_assigned _ _ _ Hdec).
  rewrite (decide_False (P := str "start" = str "end")) in * by discriminate.
  rewrite (decide_True (P := str "start" = str "start")) in * by done.
  rewrite (decide_False (P := [] = str "end")) by discriminate.
  rewrite (decide_False (P := [] = str "start")) by discriminate.
  rewrite bool_decide_eq_true_2 by done. cbn [fst snd] in *.
  set (sid := default [] (p_session_id p)) in *.
  set (ws := actual_windows (boss st) (p_exclude_active p) windows) in *.
  destruct (deliver_writes sid d ws (schedule sid (create_or_update_session sid st)))
    as [Hr Hw].
  rewrite (deliver_marks sid d ws _ Hsid) in *. cbn zeta in *.
  cbn [sessions_map boss timers child_writes] in *.
  split; [done|]. split; [done|]. split; [done|]. split; [done|].
  split; [exact Hnw|].
  cbn [schedule add_timer with_sessions with_timers child_writes].
  by rewrite child_writes_create.
Qed.

(** *** From the client to the windows *)

Lemma decode_text (c : pystr) (b : bytes) :
  utf8_encode c = Some b →
  decode_data (str "text:" ++ c) = inr (Some (Bytes b), []).
Proof.
  intros Hb. unfold decode_data.
  replace (partition 58 (str "text:" ++ c)) with (str "text", [58], c).
  - rewrite decide_True by done. by rewrite Hb.
  - symmetry. refine (partition_tag (str "text") c _).
    vm_compute. intros Hin.
    repeat (apply elem_of_cons in Hin as [Hin|Hin]; [discriminate|]).
    by apply elem_of_nil in Hin.
Qed.

Lemma decode_base64 (q : pystr) (b : bytes) :
  standard_b64decode q = Some b →
  decode_data (str "base64:" ++ q) = inr (Some (Bytes b), []).
Proof.
  intros Hb. unfold decode_data.
  replace (partition 58 (str "base64:" ++ q)) with (str "base64", [58], q).
  - rewrite decide_False by discriminate. rewrite decide_True by done.
    by rewrite Hb.
  - symmetry. refine (partition_tag (str "base64") q _).
    vm_compute. intros Hin.
    repeat (apply elem_of_cons in Hin as [Hin|Hin]; [discriminate|]).
    by apply elem_of_nil in Hin.
Qed.

Lemma omap_write_bytes (b : bytes) (ws : list N) :
  omap (write_for (Bytes b)) ws = (λ w, (w, b)) <$> ws.
Proof. induction ws as [|w ws IH]; [done|]. cbn. by rewrite IH. Qed.

(** The requests of one run, each carrying octets and no session id, handled
    one after the other. *)
Lemma handle_all_plain {X} (window : option N) (p0 : payload) (xs : list X)
    (enc : X → pystr) (f : X → bytes) (st : state)
    (windows : list (option N)) :
  default [] (p_session_id p0) = [] →
  resolve_windows (boss st) p0 = inr windows →
  Forall (λ x, decode_data (enc x) = inr (Some (Bytes (f x)), [])) xs →
  handle_all window ((λ x, set_data (enc x) p0) <$> xs) st
  = (mkState (sessions_map st) (boss st) (timers st)
       (cursor_stop_blinking_after st)
       (child_writes st
        ++ (xs ≫= λ x, (λ w, (w, f x))
                         <$> actual_windows (boss st) (p_exclude_active p0)
                               windows)),
     (λ _, inr ()) <$> xs).
Proof.
  intros Hsid Hres Hall. revert st Hres.
  induction Hall as [|x xs Hx _ IH]; intros st Hres.
  - cbn. rewrite app_nil_r. by destruct st.
  - rewrite fmap_cons. cbn [handle_all].
    rewrite (plain_request window (set_data (enc x) p0) st (Bytes (f x)) []
               windows Hx Hsid Hres).
    cbn [set_data p_exclude_active]. rewrite omap_write_bytes.
    rewrite IH by exact Hres.
    cbn [sessions_map boss timers cursor_stop_blinking_after child_writes
           mbind list_bind]. by rewrite <- app_assoc.
Qed.

Lemma written_to_once (w : N) (b : bytes) (ws : list N) :
  written_to w ((λ w', (w', b)) <$> ws)
  = (λ _, b) <$> filter (λ w', w' = w) ws.
Proof.
  unfold written_to. induction ws as [|x ws IH]; [done|].
  rewrite fmap_cons, !filter_cons. cbn [fst].
  destruct (decide (x = w)); [rewrite !fmap_cons|]; by rewrite IH.
Qed.

Lemma filter_eq_absent (w : N) (ws : list N) :
  w ∉ ws → filter (λ w', w' = w) ws = [].
Proof.
  induction ws as [|x ws IH]; [done|]. intros Hnin.
  apply not_elem_of_cons in Hnin as [Hne Hnin].
  rewrite filter_cons. rewrite decide_False by done. by apply IH.
Qed.

Lemma filter_eq_NoDup (w : N) (ws : list N) :
  NoDup ws → w ∈ ws → filter (λ w', w' = w) ws = [w].
Proof.
  induction 1 as [|x ws Hx Hnd IH]; intros Hin; [by apply elem_of_nil in Hin|].
  rewrite filter_cons. destruct (decide (x = w)) as [->|Hne].
  - f_equal. by apply filter_eq_absent.
  - apply elem_of_cons in Hin as [->|Hin]; [done|]. by apply IH.
Qed.

Lemma written_to_run {X} (w : N) (xs : list X) (f : X → bytes) (ws : list N) :
  written_to w (xs ≫= λ x, (λ w', (w', f x)) <$> ws)
  = xs ≫= λ x, (λ _, f x) <$> filter (λ w', w' = w) ws.
Proof.
  induction xs as [|x xs IH]; [done|].
  cbn [mbind list_bind]. unfold written_to in *.
  rewrite list.filter_app, fmap_app, IH. f_equal. apply written_to_once.
Qed.

Lemma bind_singleton_fmap {X Y} (f : X → Y) (xs : list X) :
  xs ≫= (λ x, [f x]) = f <$> xs.
Proof. induction xs as [|x xs IH]; [done|]. cbn. by rewrite <- IH. Qed.

Lemma bind_nil_const {X Y} (xs : list X) : xs ≫= (λ _, @nil Y) = [].
Proof. induction xs as [|x xs IH]; [done|]. cbn. by rewrite IH. Qed.

Lemma no_surrogate_concat (cs : list pystr) :
  existsb is_surrogate (concat cs) = false →
  Forall (λ c, utf8_encode c = Some (utf8_bytes c)) cs.
Proof.
  induction cs as [|c cs IH]; [constructor|].
  simpl. rewrite existsb_app. intros Hor.
  apply orb_false_elim in Hor as [Hc Hcs].
  constructor; [|by apply IH]. unfold utf8_encode. by rewrite Hc.
Qed.

(** X16: a literal text goes through whole.  When the payloads that the
    client makes of the text are handled by the host one after the other, no
    request fails, nothing but the writes changes, and every window the
    request resolves to (once) has been written, piece by piece, exactly the
    UTF-8 encoding of the expanded text; no other window is written to. *)
Theorem sent_text_arrives (env : client_env) (opts : CLIOptions)
    (args : list pystr) (data : pystr) (octets : bytes)
    (window : option N) (st : state) (windows : list (option N)) :
  o_stdin opts = false →
  o_from_file opts = [] →
  utf8_decode (parse_send_text_bytes (join (str " ") args)) = Some data →
  utf8_encode data = Some octets →
  resolve_windows (boss st)
    (Payload (o_match opts) [] (o_match_tab opts) (o_all opts)
             (o_exclude_active opts) None) = inr windows →
  let targets := actual_windows (boss st) (o_exclude_active opts) windows in
  let done := handle_all window (message_to_kitty env opts args).1 st in
  Forall (λ r, r = inr ()) done.2
  ∧ sessions_map done.1 = sessions_map st
  ∧ boss done.1 = boss st
  ∧ timers done.1 = timers st
  ∧ ∃ new,
      child_writes done.1 = child_writes st ++ new
      ∧ (∀ w, NoDup targets → w ∈ targets →
              concat (written_to w new) = octets)
      ∧ (∀ w, w ∉ targets → written_to w new = []).
Proof.
  intros Hstdin Hfile Hdec Henc Hres. cbn zeta.
  unfold message_to_kitty, chain. rewrite Hstdin, Hfile.
  rewrite bool_decide_eq_false_2 by (intros Hne; by apply Hne).
  set (ret := Payload _ _ _ _ _ _) in *.
  unfold chain2, skip, chunks. rewrite Hdec.
  destruct (chunks_loop_spec 1024 (S (length data)) ltac:(lia) data ret ret)
    as (cs & ret' & -> & _ & Hcat & _); [lia|by left|].
  cbn [fst]. rewrite !app_nil_l.
  assert (Hoct : octets = utf8_bytes data ∧ existsb is_surrogate data = false).
  { unfold utf8_encode in Henc. destruct (existsb _ _); [done|].
    by injection Henc as <-. }
  destruct Hoct as [-> Hsur]. rewrite <- Hcat in Hsur.
  pose proof (no_surrogate_concat cs Hsur) as Hcs.
  rewrite (handle_all_plain window ret cs (λ c, str "text:" ++ c) utf8_bytes
             st windows eq_refl Hres).
  2:{ eapply Forall_impl; [|exact Hcs]. intros c Hc. by apply decode_text. }
  cbn [fst snd sessions_map boss timers child_writes].
  split; [by apply Forall_fmap, Forall_true|].
  split; [done|]. split; [done|]. split; [done|].
  eexists. split; [reflexivity|]. split.
  - intros w Hnd Hin. rewrite written_to_run.
    subst ret. cbn [p_exclude_active]. rewrite filter_eq_NoDup by done.
    cbn [fmap list_fmap]. rewrite bind_singleton_fmap.
    by rewrite utf8_bytes_concat, Hcat.
  - intros w Hnin. rewrite written_to_run.
    subst ret. cbn [p_exclude_active]. rewrite filter_eq_absent by done.
    cbn [fmap list_fmap]. apply bind_nil_const.
Qed.

(** X17: a file goes through whole.  With a base64 codec that decodes what
    it encoded, when the payloads that the client makes of a file (and of no
    text) are handled by the host one after the other, no request fails,
    nothing but the writes changes, and every window the request resolves to
    (once) has been written, block by block, exactly the content of the
    file, uninterpreted. *)
Theorem sent_file_arrives (env : client_env) (opts : CLIOptions)
    (args : list pystr) (file : bytes)
    (window : option N) (st : state) (windows : list (option N)) :
  (∀ b, standard_b64decode (standard_b64encode b) = Some b) →
  o_stdin opts = false →
  o_from_file opts ≠ [] →
  open_rb env (o_from_file opts) = Some file →
  utf8_decode (parse_send_text_bytes (join (str " ") args)) = Some [] →
  resolve_windows (boss st)
    (Payload (o_match opts) [] (o_match_tab opts) (o_all opts)
             (o_exclude_active opts) None) = inr windows →
  let targets := actual_windows (boss st) (o_exclude_active opts) windows in
  let done := handle_all window (message_to_kitty env opts args).1 st in
  Forall (λ r, r = inr ()) done.2
  ∧ sessions_map done.1 = sessions_map st
  ∧ boss done.1 = boss st
  ∧ timers done.1 = timers st
  ∧ ∃ new,
      child_writes done.1 = child_writes st ++ new
      ∧ (∀ w, NoDup targets → w ∈ targets →
              concat (written_to w new) = file)
      ∧ (∀ w, w ∉ targets → written_to w new = []).
Proof.
  intros Hb64 Hstdin Hfile Hopen Hdec Hres. cbn zeta.
  unfold message_to_kitty, chain. rewrite Hstdin.
  rewrite bool_decide_eq_true_2 by done.
  set (ret := Payload _ _ _ _ _ _) in *.
  unfold chain2, skip, file_pipe, chunks. rewrite Hopen, Hdec.
  destruct (read_loop_spec 1024 (S (length file)) ltac:(lia) file ret ret)
    as (bs & ret' & -> & _ & _ & Hcat); [lia|by left|].
  cbn [chunks_loop length fst]. rewrite !app_nil_l, !app_nil_r.
  rewrite (handle_all_plain window ret bs
             (λ b, str "base64:" ++ standard_b64encode b) (λ b, b)
             st windows eq_refl Hres).
  2:{ apply Forall_forall. intros b _. by apply decode_base64. }
  cbn [fst snd sessions_map boss timers child_writes].
  split; [by apply Forall_fmap, Forall_true|].
  split; [done|]. split; [done|]. split; [done|].
  eexists. split; [reflexivity|]. split.
  - intros w Hnd Hin. rewrite written_to_run.
    subst ret. cbn [p_exclude_active]. rewrite filter_eq_NoDup by done.
    cbn [fmap list_fmap]. rewrite bind_singleton_fmap.
    by rewrite list_fmap_id.
  - intros w Hnin. rewrite written_to_run.
    subst ret. cbn [p_exclude_active]. rewrite filter_eq_absent by done.
    cbn [fmap list_fmap]. apply bind_nil_const.
Qed.

(** X21: a [start] control adds the resolved windows to the members of the
    session and keeps the members it had; it sets the flag of the resolved
    windows and of no other; it gives the session a timer that fires once
    after [blink_time]; and it leaves every other session as it was. *)
Theorem start_effect (window : option N) (p : payload) (st : state)
    (windows : list (option N)) :
  p_data p = str "session:start" →
  resolve_windows (boss st) p = inr windows →
  let sid := default [] (p_session_id p) in
  let ws := actual_windows (boss st) (p_exclude_active p) windows in
  let s := default (new_Session sid) (sessions_map st !! sid) in
  let st1 := (response_from_kitty window p st).1 in
  ∃ s1,
    sessions_map st1 !! sid = Some s1
    ∧ (∀ w, w ∈ window_ids s1 ↔ w ∈ window_ids s ∨ w ∈ ws)
    ∧ timer_id s1 ≠ 0
    ∧ outstanding sid st1 !! timer_id s1
      = Some (mkTimer sid (blink_time st) false)
    ∧ (∀ k, k ≠ sid → sessions_map st1 !! k = sessions_map st !! k)
    ∧ ∀ w, render_unfocused_cursor <$> window_id_map (boss st1) !! w
           = if decide (w ∈ ws)
             then (λ _, 1) <$> window_id_map (boss st) !! w
             else render_unfocused_cursor <$> window_id_map (boss st) !! w.
Proof.
  intros Hd Hres. cbn zeta.
  destruct (start_fields window p st windows None (decode_start _ Hd) Hres)
    as (_ & Hs & Ha & _ & _ & _ & _ & _ & _ & Hm).
  cbn zeta in *. eexists. split; [by rewrite Hs, lookup_insert_eq|].
  cbn [window_ids timer_id]. split; [intros w; apply elem_of_foldl_add|].
  split; [lia|]. split.
  { unfold outstanding. apply map_lookup_filter_Some.
    split; [by rewrite Ha, lookup_insert_eq|done]. }
  split; [|done]. intros k Hk. by rewrite Hs, lookup_insert_ne.
Qed.

End HostMore.

(** ** gen-srgb-lut.py: the generated files *)

Lemma count_app c s t : count c (s ++ t) = (count c s + count c t)%nat.
Proof. unfold count. by rewrite list.filter_app, length_app. Qed.

Lemma count_absent c s : c ∉ s → count c s = 0%nat.
Proof.
  unfold count. induction s as [|a s IH]; [done|]. intros Hnin.
  apply not_elem_of_cons in Hnin as [Hne Hnin].
  rewrite filter_cons. rewrite decide_False by done. by apply IH.
Qed.

Lemma count_join c sep l :
  count c (join sep l)
  = (sum_list (count c <$> l) + (length l - 1) * count c sep)%nat.
Proof.
  induction l as [|x l IH]; [done|].
  destruct l as [|y l].
  - cbn [join fmap list_fmap sum_list sum_list_with length Nat.sub Nat.mul id].
    lia.
  - change (join sep (x :: y :: l)) with (x ++ sep ++ join sep (y :: l)).
    rewrite !count_app, IH.
    cbn [fmap list_fmap sum_list sum_list_with length id].
    rewrite !Nat.sub_succ, !Nat.sub_0_r. cbn [Nat.mul]. lia.
Qed.

Section LutFiles.

Variable format_linear : nat → pystr.

Local Abbreviation value := (GenSrgbLut.value format_linear).
Local Abbreviation lut_line := (GenSrgbLut.lut_line format_linear).

Lemma generate_srgb_lut_eq line_prefix :
  GenSrgbLut.generate_srgb_lut format_linear line_prefix
  = Some (map (lut_line line_prefix) (seq 0 16)).
Proof.
  assert (Hlast : rstrip 44 (line_prefix
                      ++ join (str ", ") (map value (seq 240 16)) ++ str ",")
                  = lut_line line_prefix 15).
  { unfold GenSrgbLut.lut_line. rewrite slice_values by lia.
    change (15 * 16)%nat with 240%nat. change (15 <? 15)%nat with false.
    destruct (last_slice_join format_linear) as [s Hs]. rewrite Hs, app_nil_r.
    change (str ",") with [44].
    replace (line_prefix ++ (s ++ [102]) ++ [44])
      with ((line_prefix ++ s) ++ [102; 44]) by by rewrite <- !app_assoc.
    rewrite rstrip_one by done. by rewrite <- app_assoc. }
  unfold GenSrgbLut.generate_srgb_lut. rewrite lines_loop_map.
  rewrite length_map, length_seq.
  cbn [seq map lookup list_lookup mbind option_bind].
  rewrite (slice_values _ 15) by lia. change (15 * 16)%nat with 240%nat.
  cbn [list_insert insert]. rewrite Hlast. reflexivity.
Qed.

Lemma count_lut_line c i :
  (i < 16)%nat →
  (∀ i, c ∉ format_linear i) →
  c ≠ 102 →
  count c (lut_line (str "    ") i)
  = (count c (str "    ") + 15 * count c (str ", ")
     + count c (if (i <? 15)%nat then str "," else []))%nat.
Proof.
  intros Hi Hf Hc. unfold GenSrgbLut.lut_line.
  rewrite !count_app, count_join, slice_values by done.
  rewrite length_map, length_seq.
  rewrite (sum_list_fmap_same 0).
  - rewrite length_map, length_seq. lia.
  - apply Forall_forall. intros v Hv. apply in_map_iff in Hv as (j & <- & _).
    unfold GenSrgbLut.value. rewrite count_app, (count_absent c (format_linear j))
      by done.
    apply count_absent. change (str "f") with [102].
    intros Hin. by apply list_elem_of_singleton in Hin.
Qed.

(** X18: when no number is printed with a comma or a line break in it,
    each of the two files that [main] writes has exactly 255 commas and 20
    line breaks: twenty lines and, between the braces, 256 values with a
    comma between any two and none after the last. *)
Theorem main_files :
  (∀ i, 44 ∉ format_linear i) →
  (∀ i, 10 ∉ format_linear i) →
  ∃ c g,
    GenSrgbLut.main format_linear
    = Some [(str "kitty/srgb_gamma.h", c); (str "kitty/srgb_gamma.glsl", g)]
    ∧ count 44 c = 255%nat ∧ count 10 c = 20%nat
    ∧ count 44 g = 255%nat ∧ count 10 g = 20%nat.
Proof.
  intros Hcomma Hnl.
  assert (Hfile : ∀ (ch : N) declaration close,
    (∀ i, ch ∉ format_linear i) → ch ≠ 102 →
    ∃ t, GenSrgbLut.generate_srgb_gamma format_linear declaration close = Some t
         ∧ count ch (t ++ [10])
           = (count ch (str "// Generated by gen-srgb-lut.py DO NOT edit")
              + count ch declaration + count ch close
              + 16 * (count ch (str "    ") + 15 * count ch (str ", "))
              + 15 * count ch (str ",")
              + 20 * count ch [10%N])%nat).
  { intros ch declaration close Hch Hne.
    unfold GenSrgbLut.generate_srgb_gamma. rewrite generate_srgb_lut_eq.
    cbn [mbind option_bind]. eexists. split; [reflexivity|].
    rewrite count_app, count_join. cbn [seq map app fmap list_fmap length].
    rewrite !(count_lut_line ch) by (done || lia).
    cbn [Nat.ltb Nat.leb sum_list sum_list_with id].
    change (count ch []) with 0%nat. change (20 - 1)%nat with 19%nat. lia. }
  unfold GenSrgbLut.main.
  destruct (Hfile 44 (str "static const GLfloat srgb_lut[256] = {") (str "};")
              Hcomma ltac:(done)) as (c & Hc & Hc44).
  destruct (Hfile 10 (str "static const GLfloat srgb_lut[256] = {") (str "};")
              Hnl ltac:(done)) as (c' & Hc' & Hc10).
  destruct (Hfile 44 (str "const float gamma_lut[256] = float[256](") (str ");")
              Hcomma ltac:(done)) as (g & Hg & Hg44).
  destruct (Hfile 10 (str "const float gamma_lut[256] = float[256](") (str ");")
              Hnl ltac:(done)) as (g' & Hg' & Hg10).
  rewrite Hc in Hc'. injection Hc' as <-.
  rewrite Hg in Hg'. injection Hg' as <-.
  rewrite Hc, Hg. cbn [mbind option_bind].
  exists (c ++ [10]), (g ++ [10]). split; [done|].
  rewrite Hc44, Hc10, Hg44, Hg10. vm_compute. done.
Qed.

End LutFiles.

(** ** The further properties on the concrete instances *)

(** X1 with [in] on stdin, [file] in the file and the text [x]. *)
Lemma sources_in_order_witness :
  (@SendText.message_to_kitty Demo.lib Demo.env_pipe Demo.opts_all_sources
     [str "x"]).2 = SendText.Returned
  ∧ SendText.p_data <$>
      (@SendText.message_to_kitty Demo.lib Demo.env_pipe Demo.opts_all_sources
         [str "x"]).1
    = [str "base64:in"; str "base64:file"; str "text:x"].
Proof.
  split; [|vm_compute; reflexivity].
  destruct (@sources_in_order Demo.lib Demo.env_pipe Demo.opts_all_sources
              [str "x"] (str "file") (str "x") eq_refl eq_refl
              ltac:(discriminate) eq_refl eq_refl)
    as (bs1 & bs2 & cs & -> & _).
  reflexivity.
Defined.

(** X2 with a file that is not there. *)
Lemma unreadable_file_aborts_witness :
  @SendText.message_to_kitty Demo.lib Demo.env_pipe Demo.opts_missing_file
    [str "x"]
  = ([], SendText.Raised (SendText.OSError (str "nofile"))).
Proof.
  exact (@unreadable_file_aborts Demo.lib Demo.env_pipe Demo.opts_missing_file
           [str "x"] ltac:(discriminate) eq_refl).
Defined.

(** X3 with [hi] and then Ctrl-D typed on the terminal. *)
Lemma tty_never_sends_eot_witness :
  Forall (λ p, ∃ t, SendText.p_data p = str "text:" ++ t ∧ 4 ∉ t)
    (@SendText.pipe Demo.lib 1024 Demo.env_tty
       (SendText.Payload [] [] [] false false None)).1.1.
Proof.
  exact (@tty_never_sends_eot Demo.lib 1024 Demo.env_tty
           (SendText.Payload [] [] [] false false None) eq_refl).
Defined.

(** X6 with data that has no tag. *)
Lemma failed_request_no_effect_witness :
  (@SendText.response_from_kitty Demo.lib None
     (Demo.to_all false (str "hello") None) Demo.st_live).1 = Demo.st_live.
Proof.
  apply (@failed_request_no_effect Demo.lib None
           (Demo.to_all false (str "hello") None) Demo.st_live
           (SendText.TypeError (str "hello"))); [reflexivity|discriminate].
Defined.

(** X7 with the empty control value and the session id [s]. *)
Lemma failed_control_leaves_session_witness :
  (@SendText.response_from_kitty Demo.lib None
     (Demo.to_all false (str "session:") (Some (str "s"))) Demo.st0).2
  = inl (SendText.UnboundLocalError (str "data"))
  ∧ SendText.active
      (SendText.timers
         (@SendText.response_from_kitty Demo.lib None
            (Demo.to_all false (str "session:") (Some (str "s"))) Demo.st0).1)
    !! 1 = Some (SendText.mkTimer (str "s") (Qc_of_Z 15) false).
Proof.
  destruct (@failed_control_leaves_session Demo.lib None
              (Demo.to_all false (str "session:") (Some (str "s"))) Demo.st0
              [] [Some 1; Some 2; Some 3] 1 [2; 3]
              eq_refl ltac:(discriminate) ltac:(discriminate)
              ltac:(discriminate) eq_refl eq_refl)
    as (Hr & _ & Ht & _).
  split; [exact Hr|exact Ht].
Defined.

(** X8 with the text [hi] sent to all windows. *)
Lemma data_without_session_witness :
  @SendText.response_from_kitty Demo.lib None
    (Demo.to_all false (str "text:hi") None) Demo.st0
  = (SendText.mkState ∅ Demo.boss0 (SendText.mkTimers 0 ∅) (Qc_of_Z 0)
       [(1, str "hi"); (2, str "hi"); (3, str "hi")], inr ()).
Proof.
  exact (@data_without_session Demo.lib None
           (Demo.to_all false (str "text:hi") None) Demo.st0
           (SendText.Bytes (str "hi")) [] [Some 1; Some 2; Some 3]
           eq_refl eq_refl eq_refl).
Defined.

(** X9 with [exclude_active] and no predicate. *)
Lemma nothing_to_deliver_witness :
  @SendText.response_from_kitty Demo.lib None
    (SendText.Payload [] (str "text:hi") [] false true None) Demo.st0
  = (Demo.st0, inr ()).
Proof.
  apply (@nothing_to_deliver Demo.lib None
           (SendText.Payload [] (str "text:hi") [] false true None) Demo.st0
           (SendText.Bytes (str "hi")) []);
    [reflexivity|reflexivity|reflexivity|by right|reflexivity|reflexivity].
Defined.

(** X12 with the session [s] started from window 1 and then ended. *)
Lemma start_registers_close_action_witness :
  SendText.actions_on_close <$>
    SendText.window_id_map
      (SendText.boss
         (@SendText.response_from_kitty Demo.lib None
            (Demo.to_all false (str "session:end") (Some (str "s")))
            (@SendText.response_from_kitty Demo.lib (Some 1)
               (Demo.to_all false (str "session:start") (Some (str "s")))
               Demo.st0).1).1) !! 1
  = Some [str "s"].
Proof.
  destruct (@start_registers_close_action Demo.lib 1 None
              (Demo.to_all false (str "session:start") (Some (str "s")))
              (Demo.to_all false (str "session:end") (Some (str "s")))
              Demo.st0 [Some 1; Some 2; Some 3] (SendText.mkWindow 0 [])
              eq_refl eq_refl eq_refl eq_refl) as [_ H2].
  exact H2.
Defined.

(** X14 with the live session [a] ended twice. *)
Lemma end_twice_witness :
  SendText.sessions_map
    (@SendText.response_from_kitty Demo.lib None
       (Demo.to_all false (str "session:end") (Some (str "a")))
       (@SendText.response_from_kitty Demo.lib None
          (Demo.to_all false (str "session:end") (Some (str "a")))
          Demo.st_live).1).1
  = SendText.sessions_map
      (@SendText.response_from_kitty Demo.lib None
         (Demo.to_all false (str "session:end") (Some (str "a")))
         Demo.st_live).1.
Proof.
  destruct (@end_twice Demo.lib None None
              (Demo.to_all false (str "session:end") (Some (str "a")))
              Demo.st_live [Some 1; Some 2; Some 3] eq_refl eq_refl)
    as (_ & Hs & _).
  exact Hs.
Defined.

(** X15 with the text [hi] sent to all windows under the session [s]. *)
Lemma refresh_is_start_and_delivery_witness :
  SendText.sessions_map
    (@SendText.response_from_kitty Demo.lib None
       (Demo.to_all false (str "text:hi") (Some (str "s"))) Demo.st0).1
  = SendText.sessions_map
      (@SendText.response_from_kitty Demo.lib None
         (Demo.to_all false (str "session:start") (Some (str "s")))
         Demo.st0).1
  ∧ SendText.child_writes
      (@SendText.response_from_kitty Demo.lib None
         (Demo.to_all false (str "text:hi") (Some (str "s"))) Demo.st0).1
    = [(1, str "hi"); (2, str "hi"); (3, str "hi")].
Proof.
  destruct (@refresh_is_start_and_delivery Demo.lib None
              (Demo.to_all false (str "text:hi") (Some (str "s"))) Demo.st0
              (SendText.Bytes (str "hi")) [] [Some 1; Some 2; Some 3]
              eq_refl ltac:(discriminate) eq_refl)
    as (_ & Hs & _ & _ & _ & Hw).
  split; [exact Hs|exact Hw].
Defined.

(** X16 with a text of 1030 units sent to the active window. *)
Lemma sent_text_arrives_witness :
  ∃ new,
    SendText.child_writes
      (@SendText.handle_all Demo.lib None
         (@SendText.message_to_kitty Demo.lib Demo.env_tty Demo.opts_literal
            [Demo.long_text]).1 Demo.st0).1 = new
    ∧ concat (SendText.written_to 1 new) = Demo.long_text.
Proof.
  assert (Henc : SendText.utf8_encode Demo.long_text = Some Demo.long_text)
    by (vm_compute; reflexivity).
  destruct (@sent_text_arrives Demo.lib Demo.env_tty Demo.opts_literal
              [Demo.long_text] Demo.long_text Demo.long_text None Demo.st0
              [Some 1] eq_refl eq_refl eq_refl Henc eq_refl)
    as (_ & _ & _ & _ & new & Hw & Hc & _).
  exists new. split; [exact Hw|].
  apply Hc; [apply NoDup_singleton|by left].
Defined.

(** X17 with the file [f] sent to the active window. *)
Lemma sent_file_arrives_witness :
  ∃ new,
    SendText.child_writes
      (@SendText.handle_all Demo.lib None
         (@SendText.message_to_kitty Demo.lib Demo.env_pipe Demo.opts_file
            []).1 Demo.st0).1 = new
    ∧ concat (SendText.written_to 1 new) = str "file".
Proof.
  destruct (@sent_file_arrives Demo.lib Demo.env_pipe Demo.opts_file
              [] (str "file") None Demo.st0 [Some 1]
              (λ b, eq_refl) eq_refl ltac:(discriminate) eq_refl eq_refl
              eq_refl)
    as (_ & _ & _ & _ & new & Hw & Hc & _).
  exists new. split; [exact Hw|].
  apply Hc; [apply NoDup_singleton|by left].
Defined.

(** X18 with every number printed as [0.50000]. *)
Lemma main_files_witness :
  ∃ c g,
    GenSrgbLut.main (λ _, str "0.50000")
    = Some [(str "kitty/srgb_gamma.h", c); (str "kitty/srgb_gamma.glsl", g)]
    ∧ count 44 c = 255%nat ∧ count 10 c = 20%nat
    ∧ count 44 g = 255%nat ∧ count 10 g = 20%nat.
Proof.
  apply (main_files (λ _, str "0.50000")); intros _; vm_compute; intros Hin;
    repeat (apply elem_of_cons in Hin as [Hin|Hin]; [discriminate|]);
    by apply elem_of_nil in Hin.
Defined.

(** X19 with two [start] controls for the session [s]. *)
Lemma two_starts_one_timer_witness :
  size (SendText.outstanding (str "s")
          (@SendText.response_from_kitty Demo.lib None
             (Demo.to_all false (str "session:start") (Some (str "s")))
             (@SendText.response_from_kitty Demo.lib None
                (Demo.to_all false (str "session:start") (Some (str "s")))
                Demo.st0).1).1) = 1%nat.
Proof.
  apply (@two_starts_one_timer Demo.lib None None
           (Demo.to_all false (str "session:start") (Some (str "s")))
           (Demo.to_all false (str "session:start") (Some (str "s")))
           Demo.st0 [Some 1; Some 2; Some 3] [Some 1; Some 2; Some 3]);
    try reflexivity.
  intros tid t Hk.
  change ((∅ : gmap N SendText.Timer) !! tid = Some t) in Hk.
  by rewrite lookup_empty in Hk.
Defined.

(** X20 with two [start] controls, an expiry and a third [start]. *)
Lemma one_timer_without_close_witness :
  (size (SendText.outstanding (str "s")
           (foldl (@SendText.step Demo.lib) Demo.st0 Demo.starts_and_expiry))
   ≤ 1)%nat.
Proof.
  apply (@one_timer_without_close Demo.lib Demo.starts_and_expiry Demo.st0
           (str "s")); [reflexivity|].
  repeat constructor.
Defined.

(** X21 with the live session [a] started again on window 2 alone. *)
Lemma start_effect_witness :
  ∃ s1,
    SendText.sessions_map
      (@SendText.response_from_kitty Demo.lib None
         (SendText.Payload (str "id:2") (str "session:start") [] false false
            (Some (str "a"))) Demo.st_live).1 !! str "a" = Some s1
    ∧ 1 ∈ SendText.window_ids s1 ∧ 2 ∈ SendText.window_ids s1.
Proof.
  destruct (@start_effect Demo.lib None
              (SendText.Payload (str "id:2") (str "session:start") [] false
                 false (Some (str "a"))) Demo.st_live [Some 2]
              eq_refl eq_refl) as (s1 & Hs & Hm & _).
  exists s1. split; [exact Hs|]. split; apply Hm.
  - left. vm_compute. done.
  - right. vm_compute. left.
Defined.
